(** * Compression MCP client: a shallow embedding of
      [compression_mcp_client.py] and the properties of its three
      compression operations, followed by the diagnostic tool of
      [mcp_diagnostic_tool.py].

    Modelling conventions.
    - A Python [str] is a [list ascii]: a sequence of characters whose
      code points are below 256; [len] is [length], [s[:k]] is [take k s].
    - A message ([Dict]) is a finite map from keys to text,
      [gmap string text]; [msg.get(k, d)] and [msg[k]] are modelled
      separately because the second one can raise [KeyError].
    - A Python [float] that is computed from lengths and word counts
      (their quotients, their multiples of 1.3 and 0.5) is a number and
      is represented by the exact rational ([Q]). The [ratio] argument
      can be any [float], an infinity and NaN included, and the product
      [word_count * ratio] can overflow: there the conversion [int]
      raises.
    - The sum behind [total_tokens] is taken in exact rationals. The
      interpreter rounds every step, so its sum can stop just below an
      integer that the exact sum reaches, and [total_tokens] is then
      one less than here. The statements on [total_tokens] are
      therefore bounds and comparisons that hold under both.
    - A raised exception is a value of [result]; a method whose body
      falls through [pass] returns [None].
    - [datetime.now().isoformat()] is an input of each operation, [now]. *)

From Stdlib Require Import Ascii String List ZArith QArith Qabs Qround Lia.
From stdpp Require Import base list strings gmap pretty.

Local Open Scope nat_scope.
Local Open Scope string_scope.
Local Open Scope list_scope.

(** ** Python values *)

Abbreviation text := (list ascii).
Abbreviation Message := (gmap string text).

Definition str (s : string) : text := list_ascii_of_string s.

(** A [float]: a number, given by the rational it denotes, an infinity
    or NaN. Where a float is known to be a number it is handled as the
    rational itself, which then reads as a float. *)
Inductive float : Type :=
| Num (q : Q)
| Inf (negative : bool)
| NaN.

Coercion Num : Q >-> float.

Inductive exn : Type :=
| ZeroDivisionError
| KeyError (key : string)
| OverflowError
| ValueError.

Inductive result (A : Type) : Type :=
| Ok (a : A)
| Raise (e : exn).
Arguments Ok {A} a.
Arguments Raise {A} e.

#[global] Instance result_ret : MRet result := fun A a => Ok a.

#[global] Instance result_bind : MBind result := fun A B k m =>
  match m with
  | Ok a => k a
  | Raise e => Raise e
  end.

(** ** Built-ins used by the client *)

Module Py.

(** Whitespace as [str.split()] sees it, for code points below 256. *)
Definition isspace (c : ascii) : bool :=
  let n := N_of_ascii c in
  ((9 <=? n) && (n <=? 13) || (28 <=? n) && (n <=? 32)
   || (n =? 133) || (n =? 160))%N.

(** [s.split()]: the maximal runs of non-whitespace characters. *)
Fixpoint split_go (cur : text) (s : text) : list text :=
  match s with
  | [] => match cur with [] => [] | _ => [cur] end
  | c :: s' =>
      if isspace c then
        match cur with
        | [] => split_go [] s'
        | _ => cur :: split_go [] s'
        end
      else split_go (cur ++ [c]) s'
  end.

Definition split (s : text) : list text := split_go [] s.

(** [s.split('. ')]: cut at every occurrence of a full stop followed
    by a space, scanning from the left; always at least one piece. *)
Fixpoint split_dot_space_go (cur : text) (s : text) : list text :=
  match s with
  | [] => [cur]
  | c :: s' =>
      match s' with
      | d :: s'' =>
          if Ascii.eqb c "." && Ascii.eqb d " "
          then cur :: split_dot_space_go [] s''
          else split_dot_space_go (cur ++ [c]) s'
      | [] => split_dot_space_go (cur ++ [c]) s'
      end
  end.

Definition split_dot_space (s : text) : list text := split_dot_space_go [] s.

(** [sep.join(parts)] *)
Fixpoint join (sep : text) (parts : list text) : text :=
  match parts with
  | [] => []
  | p :: rest =>
      match rest with
      | [] => p
      | _ => p ++ sep ++ join sep rest
      end
  end.

(** [c.lower()] for one character below 256: A-Z and the accented
    capitals 192-222 (except the multiplication sign 215). *)
Definition lower_char (c : ascii) : ascii :=
  let n := N_of_ascii c in
  if ((65 <=? n) && (n <=? 90)
      || (192 <=? n) && (n <=? 222) && negb (n =? 215))%N
  then ascii_of_N (n + 32) else c.

Definition lower (s : text) : text := map lower_char s.

Fixpoint startswith (s p : text) {struct p} : bool :=
  match p, s with
  | [], _ => true
  | _ :: _, [] => false
  | a :: p', b :: s' => Ascii.eqb b a && startswith s' p'
  end.

(** [needle in hay] *)
Fixpoint contains (needle hay : text) : bool :=
  startswith hay needle ||
  match hay with
  | [] => false
  | _ :: hay' => contains needle hay'
  end.

(** [int(x)] on a float that is a number: truncation towards zero. *)
Definition int (x : Q) : Z := Z.quot (Qnum x) (Zpos (Qden x)).

(** [int(x)] on any float: an infinity and NaN cannot be converted. *)
Definition int_float (x : float) : result Z :=
  match x with
  | Num q => Ok (int q)
  | Inf _ => Raise OverflowError
  | NaN => Raise ValueError
  end.

(** [sys.maxsize]: no [len] exceeds it. *)
Definition maxsize : Z := 2 ^ 63 - 1.

(** A product of magnitude [2^1024 - 2^970] or more is rounded to an
    infinity; below, it is rounded to a number. *)
Definition overflow_threshold : Q := inject_Z (2 ^ 1024 - 2 ^ 970).

(** [n * x] for a length [n] and a float [x]: an infinity when the
    product overflows, NaN for 0 times an infinity. The product that
    does not overflow is kept exact, its only use being the
    conversion above, and the length enters as the number it is (its
    conversion to a float is exact below 2^53). The lists of the model
    can be longer than any list of the interpreter: a length counts up
    to [maxsize]. *)
Definition mul_len (n : nat) (x : float) : float :=
  match x with
  | Num q =>
      let p := (inject_Z (Z.min (Z.of_nat n) maxsize) * q)%Q in
      if Qle_bool overflow_threshold (Qabs p)
      then Inf (negb (Qle_bool 0 p))
      else Num p
  | Inf negative => if (n =? 0)%nat then NaN else Inf negative
  | NaN => NaN
  end.

(** [sum(xs)]: left to right, starting from 0. *)
Definition sum (xs : list Q) : Q := fold_left Qplus xs 0%Q.

Definition float_of_nat (n : nat) : Q := inject_Z (Z.of_nat n).

(** [a / b] on two lengths. *)
Definition truediv (a b : nat) : result Q :=
  match b with
  | O => Raise ZeroDivisionError
  | S _ => Ok (Z.of_nat a # Pos.of_nat b)
  end.

(** [d.get(k, default)] *)
Definition get (d : Message) (k : string) (default : text) : text :=
  match d !! k with
  | Some v => v
  | None => default
  end.

(** [d[k]] *)
Definition getitem (d : Message) (k : string) : result text :=
  match d !! k with
  | Some v => Ok v
  | None => Raise (KeyError k)
  end.

End Py.

(** ** The client *)

Record CompressionMCPClient : Type := {
  connected : bool;
  mock_mode : bool
}.

(** [__init__] *)
Definition init : CompressionMCPClient :=
  {| connected := false; mock_mode := true |}.

(** [connect]: the new state of the client and the returned flag. *)
Definition connect (self : CompressionMCPClient) : CompressionMCPClient * bool :=
  ({| connected := true; mock_mode := mock_mode self |}, true).

Module CompressionResult.
Record t : Type := {
  compressed_text : text;
  original_length : nat;
  compressed_length : nat;
  compression_ratio : Q;
  timestamp : string
}.
End CompressionResult.

Module Suggestion.
Record t : Type := {
  message_index : nat;
  reason : text;
  potential_savings : Q
}.
End Suggestion.

Module Suggestions.
Record t : Type := {
  total_tokens : Z;
  suggestions : list Suggestion.t;
  estimated_savings : Q;
  timestamp : string
}.
End Suggestions.

Module ConversationSummary.
Record t : Type := {
  summary : text;
  key_points : list text;
  decisions : list text;
  message_count : nat;
  compression_ratio : Q;
  timestamp : string
}.
End ConversationSummary.

(** *** [compress_text] *)

Definition compress_text (self : CompressionMCPClient) (now : string)
    (txt : text) (ratio : float) : result (option CompressionResult.t) :=
  if mock_mode self then
    let word_count := length (Py.split txt) in
    target_words ← Py.int_float (Py.mul_len word_count ratio);
    let sentences := Py.split_dot_space txt in
    let compressed :=
      Py.join (str ". ") (take (Nat.max 1 (length sentences / 2)) sentences)
      ++ str "." in
    r ← Py.truediv (length compressed) (length txt);
    Ok (Some {| CompressionResult.compressed_text := compressed;
                CompressionResult.original_length := length txt;
                CompressionResult.compressed_length := length compressed;
                CompressionResult.compression_ratio := r;
                CompressionResult.timestamp := now |})
  else Ok None.

(** *** [get_compression_suggestions] *)

(** The slice [conversation[:-10]]. *)
Definition all_but_last_10 {A : Type} (l : list A) : list A :=
  take (length l - 10) l.

(** The loop over [enumerate(conversation[:-10])]: [i] is the index of
    the head of [msgs], [acc] the list [suggestions] built so far. *)
Fixpoint suggest_loop (i : nat) (msgs : list Message)
    (acc : list Suggestion.t) : result (list Suggestion.t) :=
  match msgs with
  | [] => Ok acc
  | msg :: rest =>
      if (500 <? length (Py.get msg "content" []))%nat
      then
        content ← Py.getitem msg "content";
        suggest_loop (S i) rest
          (acc ++ [ {| Suggestion.message_index := i;
                       Suggestion.reason := str "Long message";
                       Suggestion.potential_savings :=
                         (Py.float_of_nat (length content) * (1 # 2))%Q |} ])
      else suggest_loop (S i) rest acc
  end.

(** The estimate summed into [total_tokens]: words times 1.3. *)
Definition estimated_tokens (msg : Message) : Q :=
  (Py.float_of_nat (length (Py.split (Py.get msg "content" []))) * (13 # 10))%Q.

Definition get_compression_suggestions (self : CompressionMCPClient)
    (now : string) (conversation : list Message) (threshold : Q)
    : result (option Suggestions.t) :=
  if mock_mode self then
    let total_tokens := Py.sum (map estimated_tokens conversation) in
    suggestions ← suggest_loop 0 (all_but_last_10 conversation) [];
    Ok (Some {| Suggestions.total_tokens := Py.int total_tokens;
                Suggestions.suggestions := suggestions;
                Suggestions.estimated_savings :=
                  Py.sum (map Suggestion.potential_savings suggestions);
                Suggestions.timestamp := now |})
  else Ok None.

(** *** [compress_conversation] *)

Definition snippet (content : text) : text := take 100 content ++ str "...".

(** One iteration of the extraction loop on the pair
    ([key_points], [decisions]). *)
Definition extract (st : list text * list text) (msg : Message)
    : list text * list text :=
  let '(key_points, decisions) := st in
  let content := Py.get msg "content" [] in
  let decisions :=
    if Py.contains (str "decision") (Py.lower content)
       || Py.contains (str "decided") (Py.lower content)
    then decisions ++ [snippet content] else decisions in
  let key_points :=
    if existsb (fun word => Py.contains word (Py.lower content))
         [str "implement"; str "build"; str "create"]
    then key_points ++ [snippet content] else key_points in
  (key_points, decisions).

Definition compress_conversation (self : CompressionMCPClient)
    (now : string) (messages : list Message) (max_tokens : Z)
    : result (option ConversationSummary.t) :=
  if mock_mode self then
    let '(key_points, decisions) := fold_left extract messages ([], []) in
    Ok (Some {| ConversationSummary.summary :=
                  str "Conversation with " ++ str (pretty (length messages))
                  ++ str " messages";
                ConversationSummary.key_points := take 5 key_points;
                ConversationSummary.decisions := take 3 decisions;
                ConversationSummary.message_count := length messages;
                ConversationSummary.compression_ratio := (1 # 10)%Q;
                ConversationSummary.timestamp := now |})
  else Ok None.

(** ** Notions used in the statements *)

(** *** [compress_text] *)

(** The text the fallback path returns: the leading half of the
    sentence units (at least one), rejoined, with a final full stop. *)
Definition kept_sentences (txt : text) : text :=
  let sentences := Py.split_dot_space txt in
  Py.join (str ". ") (take (Nat.max 1 (length sentences / 2)) sentences)
  ++ str ".".

(** A ratio of the documented range (0,1]. *)
Definition in_range (ratio : float) : Prop :=
  match ratio with
  | Num q => (0 < q)%Q /\ (q <= 1)%Q
  | Inf _ | NaN => False
  end.

(** The float [word_count * ratio] that [compress_text] converts to an
    integer. *)
Definition scaled_word_count (txt : text) (ratio : float) : float :=
  Py.mul_len (length (Py.split txt)) ratio.

Definition is_num (x : float) : Prop := exists q, x = Num q.

(** The result of a call that gets as far as the division. *)
Definition returned (now : string) (txt : text)
    : result (option CompressionResult.t) :=
  match txt with
  | [] => Raise ZeroDivisionError
  | _ :: _ =>
      Ok (Some {| CompressionResult.compressed_text := kept_sentences txt;
                  CompressionResult.original_length := length txt;
                  CompressionResult.compressed_length :=
                    length (kept_sentences txt);
                  CompressionResult.compression_ratio :=
                    Z.of_nat (length (kept_sentences txt))
                    # Pos.of_nat (length txt);
                  CompressionResult.timestamp := now |})
  end.

(** Two outcomes of [compress_text] that differ at most in the time
    stamp. *)
Definition same_but_timestamp (r1 r2 : CompressionResult.t) : Prop :=
  CompressionResult.compressed_text r1 = CompressionResult.compressed_text r2
  /\ CompressionResult.original_length r1 = CompressionResult.original_length r2
  /\ CompressionResult.compressed_length r1
     = CompressionResult.compressed_length r2
  /\ CompressionResult.compression_ratio r1
     = CompressionResult.compression_ratio r2.

Definition outcomes_agree
    (o1 o2 : result (option CompressionResult.t)) : Prop :=
  match o1, o2 with
  | Ok (Some r1), Ok (Some r2) => same_but_timestamp r1 r2
  | Ok None, Ok None => True
  | Raise e1, Raise e2 => e1 = e2
  | _, _ => False
  end.

(** *** [get_compression_suggestions] *)

(** The suggestion the loop appends for message [msg] at index [i]. *)
Definition long_message (i : nat) (msg : Message) : Suggestion.t :=
  {| Suggestion.message_index := i;
     Suggestion.reason := str "Long message";
     Suggestion.potential_savings :=
       (Py.float_of_nat (length (Py.get msg "content" [])) * (1 # 2))%Q |}.

Definition is_long (msg : Message) : bool :=
  (500 <? length (Py.get msg "content" []))%nat.

(** What the loop adds to [suggestions], as a function of the messages
    it visits. *)
Fixpoint long_messages (i : nat) (msgs : list Message) : list Suggestion.t :=
  match msgs with
  | [] => []
  | msg :: rest =>
      (if is_long msg then [long_message i msg] else [])
      ++ long_messages (S i) rest
  end.

(** Words of all the messages of a conversation. *)
Definition total_words (conversation : list Message) : nat :=
  sum_list (map (fun msg => length (Py.split (Py.get msg "content" [])))
              conversation).


(** The cutoff as the specification words it: 500 characters scaled by
    the threshold. *)
Definition spec_size_cutoff (threshold : Q) : Q := (500 * threshold)%Q.

(** *** [compress_conversation] *)

Definition content_of (msg : Message) : text := Py.get msg "content" [].

Definition is_decision (msg : Message) : bool :=
  Py.contains (str "decision") (Py.lower (content_of msg))
  || Py.contains (str "decided") (Py.lower (content_of msg)).

Definition is_key_point (msg : Message) : bool :=
  existsb (fun word => Py.contains word (Py.lower (content_of msg)))
    [str "implement"; str "build"; str "create"].

Definition snippet_of (msg : Message) : text := snippet (content_of msg).

(** The ratio as the specification words it: the estimated size of the
    summary (its headline, key points and decisions) over the estimated
    size of the original messages, both at 1.3 tokens per word. *)
Definition token_estimate (t : text) : Q :=
  (Py.float_of_nat (length (Py.split t)) * (13 # 10))%Q.

Definition spec_summary_size (r : ConversationSummary.t) : Q :=
  (token_estimate (ConversationSummary.summary r)
   + Py.sum (map token_estimate (ConversationSummary.key_points r))
   + Py.sum (map token_estimate (ConversationSummary.decisions r)))%Q.

Definition spec_original_size (messages : list Message) : Q :=
  Py.sum (map (fun msg => token_estimate (content_of msg)) messages).

Definition spec_achieved_ratio (messages : list Message)
    (r : ConversationSummary.t) : Q :=
  (spec_summary_size r / spec_original_size messages)%Q.

(** ** Sample inputs *)

(** The text of the module's own usage example: one sentence, ten
    times. *)
Definition demo_text : text :=
  concat (repeat
    (str "This is a very long text that needs to be compressed. ") 10).

Definition msg_of (role content : string) : Message :=
  {[ "role" := str role; "content" := str content ]}.

(** The conversation of the module's own usage example. *)
Definition demo_conversation : list Message :=
  [ msg_of "user" "Let's implement the memory system";
    msg_of "assistant" "I'll help you build it step by step" ].

(** A message of 300 characters followed by ten short ones. *)
Definition medium_message : Message :=
  {[ "role" := str "user"; "content" := concat (repeat (str "word ") 60) ]}.

Definition medium_then_ten : list Message :=
  medium_message :: repeat (msg_of "assistant" "ok") 10.

(** A message of 600 characters followed by ten short ones. *)
Definition long_then_ten : list Message :=
  {[ "role" := str "user"; "content" := concat (repeat (str "word ") 120) ]}
  :: repeat (msg_of "assistant" "ok") 10.

(** A message without the [content] key. *)
Definition no_content : Message := {[ "role" := str "tool" ]}.

(** Seven messages that all match both lexicons. *)
Definition seven_matches : list Message :=
  repeat (msg_of "user" "We decided to build the index") 7.

(** A message that matches both lexicons. *)
Definition decided_to_build : Message :=
  msg_of "user" "We decided to build the index".

(** ** Sentence units *)

(** Pieces that come back from splitting their own join. *)
Definition stable (parts : list text) : Prop :=
  Py.split_dot_space (Py.join (str ". ") parts) = parts.

(** The number of sentence units [compress_text] keeps. *)
Definition kept_count (txt : text) : nat :=
  Nat.max 1 (length (Py.split_dot_space txt) / 2).

(** ** [get_stats] and repeated [connect] *)

Module Stats.
Record t : Type := {
  connected : bool;
  mock_mode : bool;
  timestamp : string
}.
End Stats.

(** [get_stats]: a read-out of the two flags, with a time stamp. *)
Definition get_stats (self : CompressionMCPClient) (now : string) : Stats.t :=
  {| Stats.connected := connected self;
     Stats.mock_mode := mock_mode self;
     Stats.timestamp := now |}.

(** The client after [n] calls of [connect]. *)
Definition connect_times (n : nat) (self : CompressionMCPClient)
    : CompressionMCPClient :=
  Nat.iter n (fun c => (connect c).1) self.

(** ** The diagnostic tool *)

(** [MCPDiagnostic] of [mcp_diagnostic_tool.py]. The object holds one
    dictionary, [self.report]; its entry [checks] is filled by the
    [check_*] methods, each of which records either its findings or
    the text of the exception it caught. What the methods read from
    the machine (the [psutil] readings, the process table, the files
    at the configuration paths, the outcome of the write test) is an
    argument of the model, and so is the failure of an output step
    that [run_diagnostics] does not guard. The text that is printed
    and the content of the report file are left out, as are the
    entries [timestamp], [platform] and [python_version] that are
    never read again. *)
Module MCPDiagnostic.

(** The entry [checks['resources']] when the readings succeeded. *)
Record Resources : Type := {
  cpu_percent : Q;
  memory_percent : Q;
  memory_available_gb : Q;
  disk_percent : Q;
  disk_free_gb : Q
}.

(** [proc.info] for the attributes asked of [psutil.process_iter];
    an attribute that could not be read is [None]. *)
Record ProcInfo : Type := {
  info_pid : Z;
  info_name : option text;
  info_cmdline : option (list text);
  info_status : option text
}.

(** One element of [checks['mcp_processes']]. *)
Record Process : Type := {
  pid : Z;
  name : option text;
  status : option text;
  cmdline : text
}.

Inductive resources_entry : Type :=
  | ResourcesOk (r : Resources)
  | ResourcesError (e : text).

Inductive processes_entry : Type :=
  | ProcessList (l : list Process)
  | ProcessesError (e : text).

(** [{'path', 'exists': True, 'server_count', 'servers'}],
    [{'path', 'exists': True, 'error'}] and [{'exists': False}]. *)
Inductive config_entry : Type :=
  | ConfigFound (path : text) (server_count : nat) (servers : list text)
  | ConfigUnreadable (path : text) (e : text)
  | ConfigAbsent.

Inductive permissions_entry : Type :=
  | PermissionsOk
  | PermissionsError (e : text).

(** [self.report]: the four entries of [checks], absent until the
    check has run, and [recovery_suggestions]. *)
Record Report : Type := {
  resources : option resources_entry;
  mcp_processes : option processes_entry;
  mcp_config : option config_entry;
  permissions : option permissions_entry;
  recovery_suggestions : option (list text)
}.

(** [__init__] *)
Definition init : Report :=
  {| resources := None; mcp_processes := None; mcp_config := None;
     permissions := None; recovery_suggestions := None |}.

Definition set_resources (self : Report) (v : resources_entry) : Report :=
  {| resources := Some v; mcp_processes := mcp_processes self;
     mcp_config := mcp_config self; permissions := permissions self;
     recovery_suggestions := recovery_suggestions self |}.

Definition set_mcp_processes (self : Report) (v : processes_entry) : Report :=
  {| resources := resources self; mcp_processes := Some v;
     mcp_config := mcp_config self; permissions := permissions self;
     recovery_suggestions := recovery_suggestions self |}.

Definition set_mcp_config (self : Report) (v : config_entry) : Report :=
  {| resources := resources self; mcp_processes := mcp_processes self;
     mcp_config := Some v; permissions := permissions self;
     recovery_suggestions := recovery_suggestions self |}.

Definition set_permissions (self : Report) (v : permissions_entry) : Report :=
  {| resources := resources self; mcp_processes := mcp_processes self;
     mcp_config := mcp_config self; permissions := Some v;
     recovery_suggestions := recovery_suggestions self |}.

Definition set_recovery_suggestions (self : Report) (v : list text) : Report :=
  {| resources := resources self; mcp_processes := mcp_processes self;
     mcp_config := mcp_config self; permissions := permissions self;
     recovery_suggestions := Some v |}.

(** [check_system_resources]: [readings] is what the [try] block
    obtained, or the text of the exception. *)
Definition check_system_resources (self : Report) (readings : Resources + text)
    : Report :=
  match readings with
  | inl r => set_resources self (ResourcesOk r)
  | inr e => set_resources self (ResourcesError e)
  end.

(** *** [check_mcp_processes] *)

Definition keywords : list text := [str "mcp"; str "claude"; str "node"].

(** [' '.join(proc.info['cmdline'] or [])] *)
Definition command_line (info : ProcInfo) : text :=
  Py.join (str " ")
    match info_cmdline info with
    | Some (arg :: args) => arg :: args
    | Some [] | None => []
    end.

(** One iteration of the loop over the process table. *)
Definition collect (mcp_processes : list Process) (info : ProcInfo)
    : list Process :=
  let cmdline := command_line info in
  if existsb (fun keyword => Py.contains keyword (Py.lower cmdline)) keywords
  then mcp_processes ++ [ {| pid := info_pid info;
                             name := info_name info;
                             status := info_status info;
                             cmdline := take 200 cmdline |} ]
  else mcp_processes.

(** [table] is the process table [psutil.process_iter] went through,
    or the text of the exception that stopped it. *)
Definition check_mcp_processes (self : Report) (table : list ProcInfo + text)
    : Report :=
  match table with
  | inl infos => set_mcp_processes self (ProcessList (fold_left collect infos []))
  | inr e => set_mcp_processes self (ProcessesError e)
  end.

(** *** [check_mcp_config] *)

(** What the loop meets at one of the configuration paths: no file, a
    file that loads and has these server names under [mcpServers], or a
    file on which the [try] block raises. *)
Inductive file_state : Type :=
  | Missing
  | Loads (servers : list text)
  | Fails (e : text).

(** The [for ... else] over the configuration paths: a file that loads
    ends the loop; when the loop runs to its end the [else] branch
    records that no file exists. *)
Fixpoint check_mcp_config (self : Report) (config_paths : list (text * file_state))
    : Report :=
  match config_paths with
  | [] => set_mcp_config self ConfigAbsent
  | (path, Missing) :: rest => check_mcp_config self rest
  | (path, Loads servers) :: _ =>
      set_mcp_config self (ConfigFound path (length servers) servers)
  | (path, Fails e) :: rest =>
      check_mcp_config (set_mcp_config self (ConfigUnreadable path e)) rest
  end.

(** [check_permissions]: [failure] is the text of the exception the
    write test raised, if any. *)
Definition check_permissions (self : Report) (failure : option text) : Report :=
  match failure with
  | None => set_permissions self PermissionsOk
  | Some e => set_permissions self (PermissionsError e)
  end.

(** *** [generate_recovery_suggestions] *)

(** What a call can raise: [AttributeError], or the exception of an
    output step outside every [try] (a [print], the writing of the
    report file), kept as its text. *)
Inductive error : Type :=
  | AttributeError
  | OutputError (e : text).

Inductive outcome (A : Type) : Type :=
  | Returned (a : A)
  | Raised (e : error).
Arguments Returned {A} a.
Arguments Raised {A} e.

(** [x > y] on floats. *)
Definition gt (x y : Q) : bool := negb (Qle_bool x y).

Definition close_applications : text :=
  str "Close other applications to free memory".
Definition free_disk_space : text :=
  str "Free up disk space (at least 1GB recommended)".
Definition kill_zombies : text :=
  str "Kill zombie processes: pkill -f 'mcp.*server'".
Definition create_config : text :=
  str "Create minimal MCP config file".
Definition reduce_servers (server_count : nat) : text :=
  str "Reduce number of MCP servers (current: " ++ str (pretty server_count)
  ++ str ")".

(** [resources.get(key, 0)] for the two keys that are read: the
    reading when there is one, 0 when the entry is absent or holds an
    error. *)
Definition reading (self : Report) (field : Resources -> Q) : Q :=
  match resources self with
  | Some (ResourcesOk r) => field r
  | Some (ResourcesError _) | None => 0
  end.

(** [any(p.get('status') == 'zombie' for p in processes)]. Iterating
    the dictionary [{'error': ...}] yields its key, a string, which
    has no [get]. *)
Definition any_zombie (self : Report) : outcome bool :=
  match mcp_processes self with
  | None => Returned false
  | Some (ProcessList l) =>
      Returned (existsb (fun p => bool_decide (status p = Some (str "zombie"))) l)
  | Some (ProcessesError _) => Raised AttributeError
  end.

Definition generate_recovery_suggestions (self : Report)
    : outcome (Report * list text) :=
  let suggestions := [] in
  let suggestions :=
    if gt (reading self memory_percent) 90
    then suggestions ++ [close_applications] else suggestions in
  let suggestions :=
    if gt (reading self disk_percent) 95
    then suggestions ++ [free_disk_space] else suggestions in
  match any_zombie self with
  | Raised e => Raised e
  | Returned zombie =>
      let suggestions :=
        if zombie then suggestions ++ [kill_zombies] else suggestions in
      let suggestions :=
        match mcp_config self with
        | None | Some ConfigAbsent => suggestions ++ [create_config]
        | Some (ConfigFound _ server_count _) =>
            if (5 <? server_count)%nat
            then suggestions ++ [reduce_servers server_count]
            else suggestions
        | Some (ConfigUnreadable _ _) => suggestions
        end in
      Returned (set_recovery_suggestions self suggestions, suggestions)
  end.

(** [run_diagnostics]: the heading, the four checks, the suggestions,
    their listing and the report file; returns [self.report]. The
    output steps that stand outside every [try] end the call when they
    raise: [before] is the exception of such a step ahead of the
    suggestions (the heading; the message of a check printed outside
    its [try]), [after] that of a step behind them (the listing, the
    [open] and [json.dump] of the report file, the closing message),
    if any. *)
Definition run_diagnostics (self : Report)
    (readings : Resources + text) (table : list ProcInfo + text)
    (config_paths : list (text * file_state)) (failure : option text)
    (before after : option text)
    : outcome Report :=
  match before with
  | Some e => Raised (OutputError e)
  | None =>
      let self := check_system_resources self readings in
      let self := check_mcp_processes self table in
      let self := check_mcp_config self config_paths in
      let self := check_permissions self failure in
      match generate_recovery_suggestions self with
      | Raised e => Raised e
      | Returned (self, suggestions) =>
          match after with
          | Some e => Raised (OutputError e)
          | None => Returned self
          end
      end
  end.

End MCPDiagnostic.

(** ** Notions used in the statements on the diagnostic tool *)









(** A process table and configuration paths to run the tool on. *)
Definition demo_table : list MCPDiagnostic.ProcInfo :=
  [ {| MCPDiagnostic.info_pid := 1;
       MCPDiagnostic.info_name := Some (str "init");
       MCPDiagnostic.info_cmdline := Some [str "/sbin/init"];
       MCPDiagnostic.info_status := Some (str "sleeping") |};
    {| MCPDiagnostic.info_pid := 412;
       MCPDiagnostic.info_name := Some (str "node");
       MCPDiagnostic.info_cmdline :=
         Some [str "node"; str "/opt/MCP/server.js"];
       MCPDiagnostic.info_status := Some (str "zombie") |};
    {| MCPDiagnostic.info_pid := 413;
       MCPDiagnostic.info_name := Some (str "node");
       MCPDiagnostic.info_cmdline := Some [];
       MCPDiagnostic.info_status := Some (str "zombie") |} ].

Definition demo_paths : list (text * MCPDiagnostic.file_state) :=
  [ (str "/home/u/Library/Application Support/Claude/claude_desktop_config.json",
     MCPDiagnostic.Missing);
    (str "/home/u/.config/claude/claude_desktop_config.json",
     MCPDiagnostic.Fails (str "Expecting value: line 1 column 1 (char 0)"));
    (str "/home/u/AppData/Roaming/Claude/claude_desktop_config.json",
     MCPDiagnostic.Missing) ].

Definition demo_readings : MCPDiagnostic.Resources :=
  {| MCPDiagnostic.cpu_percent := 12;
     MCPDiagnostic.memory_percent := 93 # 1;
     MCPDiagnostic.memory_available_gb := 1;
     MCPDiagnostic.disk_percent := 40;
     MCPDiagnostic.disk_free_gb := 120 |}.


(** * Properties *)

(** ** Concrete runs of the built-ins *)

Example split_words :
  Py.split (str "  Let's implement  the memory system ") =
  [str "Let's"; str "implement"; str "the"; str "memory"; str "system"].
Proof. reflexivity. Qed.

Example split_sentences :
  Py.split_dot_space (str "One. Two.  Three. ") =
  [str "One"; str "Two"; str " Three"; str ""].
Proof. reflexivity. Qed.

(** ** The client state *)

Lemma init_mock_mode : mock_mode init = true.
Proof. reflexivity. Qed.

(** [connect] leaves the client in mock mode. *)
Lemma connect_mock_mode self : mock_mode (connect self).1 = mock_mode self.
Proof. reflexivity. Qed.

(** ** Facts about the built-ins *)

Section Strings.

Implicit Types (s cur sep : text) (parts : list text).

Lemma split_dot_space_go_step cur c d s :
  Py.split_dot_space_go cur (c :: d :: s) =
  if Ascii.eqb c "." && Ascii.eqb d " "
  then cur :: Py.split_dot_space_go [] s
  else Py.split_dot_space_go (cur ++ [c]) (d :: s).
Proof. reflexivity. Qed.

Lemma split_dot_space_go_cons cur s :
  exists p rest, Py.split_dot_space_go cur s = p :: rest.
Proof.
  revert cur. induction s as [|c s IH]; intros cur; [by simpl; eauto|].
  destruct s as [|d s'']; [by simpl; eauto|].
  rewrite split_dot_space_go_step.
  destruct (Ascii.eqb c "." && Ascii.eqb d " "); [by eauto|apply IH].
Qed.

Lemma join_cons sep p q rest :
  Py.join sep (p :: q :: rest) = p ++ sep ++ Py.join sep (q :: rest).
Proof. reflexivity. Qed.

(** Joining the pieces with the separator gives the text back. *)
Lemma join_split_dot_space_go n : forall s cur,
  length s <= n ->
  Py.join (str ". ") (Py.split_dot_space_go cur s) = cur ++ s.
Proof.
  induction n as [|n IH]; intros s cur Hn.
  - destruct s; simpl in *; [by rewrite app_nil_r|lia].
  - destruct s as [|c [|d s'']]; [by simpl; rewrite app_nil_r|done|].
    rewrite split_dot_space_go_step. simpl in Hn.
    destruct (Ascii.eqb c ".") eqn:Hc, (Ascii.eqb d " ") eqn:Hd;
      cbn [andb];
      try (rewrite IH by (simpl; lia); by rewrite <- app_assoc).
    apply Ascii.eqb_eq in Hc, Hd. subst c d.
    destruct (split_dot_space_go_cons [] s'') as (p & rest & Hs).
    pose proof (IH s'' [] ltac:(lia)) as Hj.
    rewrite Hs in Hj |- *. rewrite join_cons, Hj. reflexivity.
Qed.

Lemma join_split_dot_space s :
  Py.join (str ". ") (Py.split_dot_space s) = s.
Proof. exact (join_split_dot_space_go (length s) s [] (le_n _)). Qed.

Lemma contains_dot_space_step c d s :
  Py.contains (str ". ") (c :: d :: s) =
  Ascii.eqb c "." && Ascii.eqb d " " || Py.contains (str ". ") (d :: s).
Proof. simpl. by rewrite andb_true_r. Qed.

(** There is exactly one piece when the separator does not occur,
    and at least two when it does. *)
Lemma split_dot_space_go_count n : forall s cur,
  length s <= n ->
  if Py.contains (str ". ") s
  then 2 <= length (Py.split_dot_space_go cur s)
  else length (Py.split_dot_space_go cur s) = 1.
Proof.
  induction n as [|n IH]; intros s cur Hn.
  - destruct s; simpl in *; [done|lia].
  - destruct s as [|c [|d s'']]; [done|by simpl; rewrite andb_false_r|].
    rewrite split_dot_space_go_step, contains_dot_space_step.
    simpl in Hn.
    destruct (Ascii.eqb c "." && Ascii.eqb d " ") eqn:Hcd; cbn [orb].
    + destruct (split_dot_space_go_cons [] s'') as (p & rest & ->).
      simpl. lia.
    + apply (IH (d :: s'') (cur ++ [c])). simpl. lia.
Qed.

Lemma split_dot_space_count s :
  if Py.contains (str ". ") s
  then 2 <= length (Py.split_dot_space s)
  else length (Py.split_dot_space s) = 1.
Proof. exact (split_dot_space_go_count (length s) s [] (le_n _)). Qed.

Lemma join_length sep parts :
  length (Py.join sep parts) =
  sum_list (map length parts) + (length parts - 1) * length sep.
Proof.
  induction parts as [|p [|q rest] IH]; simpl in *; [done|lia|].
  rewrite !length_app, IH. lia.
Qed.

Lemma sum_list_take_le (l : list nat) k :
  sum_list (take k l) <= sum_list l.
Proof.
  revert k. induction l as [|x l IH]; intros [|k]; simpl; try lia.
  specialize (IH k). lia.
Qed.

(** The kept prefix of the pieces is shorter than the text by at
    least one separator for every dropped piece. *)
Lemma join_take_length sep parts k :
  1 <= k <= length parts ->
  length (Py.join sep (take k parts)) + (length parts - k) * length sep
  <= length (Py.join sep parts).
Proof.
  intros Hk. rewrite !join_length, <- firstn_map, length_take.
  pose proof (sum_list_take_le (map length parts) k).
  replace (k `min` length parts) with k by lia. nia.
Qed.

End Strings.

(** ** [compress_text] *)

Lemma Zpos_of_nat n : n <> 0 -> Z.pos (Pos.of_nat n) = Z.of_nat n.
Proof.
  intros Hn. rewrite <- positive_nat_Z. f_equal. by apply Nat2Pos.id.
Qed.

(** In mock mode the conversion of [word_count * ratio] comes first;
    past it, the call fails exactly on the empty text. *)
Lemma compress_text_unfold self now txt ratio :
  mock_mode self = true ->
  compress_text self now txt ratio =
  match scaled_word_count txt ratio with
  | Num _ => returned now txt
  | Inf _ => Raise OverflowError
  | NaN => Raise ValueError
  end.
Proof.
  intros Hm. unfold compress_text. rewrite Hm. cbv zeta.
  fold (scaled_word_count txt ratio). fold (kept_sentences txt).
  destruct (scaled_word_count txt ratio); [|done..].
  by destruct txt.
Qed.

Lemma compress_text_mock self now txt ratio :
  mock_mode self = true ->
  is_num (scaled_word_count txt ratio) ->
  compress_text self now txt ratio = returned now txt.
Proof.
  intros Hm [q Hq]. by rewrite compress_text_unfold, Hq.
Qed.

Lemma maxsize_below_threshold :
  (inject_Z Py.maxsize < Py.overflow_threshold)%Q.
Proof. by vm_compute. Qed.

(** A ratio of the documented range never makes the product overflow. *)
Lemma mul_len_in_range n (q : Q) :
  (0 < q)%Q -> (q <= 1)%Q -> is_num (Py.mul_len n q).
Proof.
  intros Hpos Hle. unfold Py.mul_len. cbv zeta.
  set (m := Z.min (Z.of_nat n) Py.maxsize).
  destruct (Qle_bool Py.overflow_threshold (Qabs (inject_Z m * q))) eqn:E;
    [|by eexists].
  exfalso. apply Qle_bool_iff in E.
  assert (Hm0 : (0 <= inject_Z m)%Q)
    by (unfold Qle; simpl; unfold m, Py.maxsize; lia).
  assert (Hmm : (inject_Z m <= inject_Z Py.maxsize)%Q)
    by (unfold Qle; simpl; unfold m; lia).
  assert (Hp : (0 <= inject_Z m * q)%Q)
    by (apply Qmult_le_0_compat; [done|by apply Qlt_le_weak]).
  rewrite (Qabs_pos _ Hp) in E.
  assert (Hmq : (inject_Z m * q <= inject_Z m)%Q).
  { rewrite <- (Qmult_1_r (inject_Z m)) at 2.
    rewrite !(Qmult_comm (inject_Z m)).
    by apply Qmult_le_compat_r. }
  pose proof maxsize_below_threshold as Hlt.
  apply (Qlt_irrefl Py.overflow_threshold).
  eapply Qle_lt_trans; [exact E|].
  eapply Qle_lt_trans; [exact Hmq|].
  eapply Qle_lt_trans; [exact Hmm|exact Hlt].
Qed.

Lemma scaled_word_count_in_range txt ratio :
  in_range ratio -> is_num (scaled_word_count txt ratio).
Proof.
  destruct ratio as [q| |]; [|done..]. intros [Hpos Hle].
  by apply mul_len_in_range.
Qed.

(** Length of the returned text against the length of the input. *)
Lemma kept_sentences_length txt :
  if Py.contains (str ". ") txt
  then length (kept_sentences txt) + 1 <= length txt
  else length (kept_sentences txt) = length txt + 1.
Proof.
  pose proof (split_dot_space_count txt) as Hc.
  pose proof (join_split_dot_space txt) as Hj.
  unfold kept_sentences. cbv zeta.
  set (sentences := Py.split_dot_space txt) in *.
  rewrite length_app. change (length (str ".")) with 1.
  destruct (Py.contains (str ". ") txt).
  - pose proof (join_take_length (str ". ") sentences
                  (Nat.max 1 (length sentences / 2))) as Hk.
    rewrite Hj in Hk. change (length (str ". ")) with 2 in Hk.
    assert (length sentences / 2 < length sentences)
      by (apply Nat.div_lt; lia).
    lia.
  - destruct sentences as [|p [|q rest]]; simpl in Hc; try lia.
    simpl in *. rewrite Hj. lia.
Qed.

Lemma kept_sentences_nonempty txt : 1 <= length (kept_sentences txt).
Proof. unfold kept_sentences. cbv zeta. rewrite length_app. simpl. lia. Qed.

(** C1 (as the code has it). For a non-empty text and a ratio in (0,1],
    [compress_text] returns a result whose [compression_ratio] is
    [compressed_length / original_length] and is positive; it is below 1
    when the text contains the separator ". ", and otherwise the result
    is one character longer than the text and the ratio is above 1. *)
Theorem compress_text_ratio_bounds self now txt ratio :
  mock_mode self = true ->
  txt <> [] ->
  (0 < ratio)%Q -> (ratio <= 1)%Q ->
  exists r,
    compress_text self now txt ratio = Ok (Some r)
    /\ CompressionResult.original_length r = length txt
    /\ CompressionResult.compression_ratio r
       = (Z.of_nat (CompressionResult.compressed_length r)
          # Pos.of_nat (CompressionResult.original_length r))
    /\ (0 < CompressionResult.compression_ratio r)%Q
    /\ if Py.contains (str ". ") txt
       then (CompressionResult.compression_ratio r < 1)%Q
       else CompressionResult.compressed_length r
            = CompressionResult.original_length r + 1
            /\ (1 < CompressionResult.compression_ratio r)%Q.
Proof.
  intros Hm Hne Hpos Hle.
  rewrite compress_text_mock by (done || by apply mul_len_in_range).
  unfold returned.
  destruct txt as [|c t] eqn:Ht; [done|]. rewrite <- Ht. clear Hne.
  assert (Hlen : length txt <> 0) by (subst txt; simpl; lia).
  eexists. split; [reflexivity|]. cbn [CompressionResult.original_length
    CompressionResult.compressed_length CompressionResult.compression_ratio].
  pose proof (kept_sentences_length txt) as Hk.
  pose proof (kept_sentences_nonempty txt) as Hp.
  split; [done|]. split; [done|].
  unfold Qlt. cbn [Qnum Qden]. rewrite Zpos_of_nat by done.
  split; [lia|].
  destruct (Py.contains (str ". ") txt); [lia|]. split; lia.
Qed.

Lemma compress_text_ratio_bounds_witness :
  let txt := str "First point. Second point. Third" in
  mock_mode init = true /\ txt <> [] /\ (0 < 3 # 10)%Q /\ (3 # 10 <= 1)%Q /\
  exists r,
    compress_text init "2025-05-28T12:00:00" txt (3 # 10) = Ok (Some r)
    /\ CompressionResult.original_length r = length txt
    /\ CompressionResult.compression_ratio r
       = (Z.of_nat (CompressionResult.compressed_length r)
          # Pos.of_nat (CompressionResult.original_length r))
    /\ (0 < CompressionResult.compression_ratio r)%Q
    /\ if Py.contains (str ". ") txt
       then (CompressionResult.compression_ratio r < 1)%Q
       else CompressionResult.compressed_length r
            = CompressionResult.original_length r + 1
            /\ (1 < CompressionResult.compression_ratio r)%Q.
Proof.
  intros txt.
  split; [reflexivity|]. split; [discriminate|].
  split; [reflexivity|]. split; [discriminate|].
  apply compress_text_ratio_bounds;
    [reflexivity|discriminate|reflexivity|discriminate].
Defined.

(** C1, as stated, fails on a text without the separator: the result is
    the text with a full stop appended, so the ratio exceeds 1. *)
Lemma compress_text_ratio_above_one :
  str "Hello" <> [] /\ (0 < 1 # 2)%Q /\ (1 # 2 <= 1)%Q /\
  exists r,
    compress_text init "2025-05-28T12:00:00" (str "Hello") (1 # 2)
    = Ok (Some r)
    /\ CompressionResult.compression_ratio r = (6 # 5)
    /\ ~ (CompressionResult.compression_ratio r <= 1)%Q.
Proof.
  split; [discriminate|]. split; [done|]. split; [done|].
  eexists. split; [reflexivity|]. split; [reflexivity|].
  intros H. vm_compute in H. by apply H.
Qed.

(** The usage example: ten sentences and an empty tail make eleven
    units, of which five are kept. *)
Example demo_text_run :
  exists r,
    compress_text init "2025-05-28T12:00:00" demo_text (3 # 10) = Ok (Some r)
    /\ length (Py.split_dot_space demo_text) = 11
    /\ CompressionResult.original_length r = 540
    /\ CompressionResult.compressed_length r = 269
    /\ CompressionResult.compression_ratio r = (269 # 540)%Q.
Proof. eexists. split; [vm_compute; reflexivity|]. by repeat split. Qed.

(** C2 (as the code has it). The ratio is not validated: for a
    non-empty text, a call with a ratio outside (0,1], such as 1.5,
    returns a result whenever the float [word_count * ratio] is a
    number; otherwise it fails in [int], with [OverflowError] on an
    infinite product and [ValueError] on NaN. *)
Theorem compress_text_ratio_not_validated self now txt ratio :
  mock_mode self = true ->
  txt <> [] ->
  ~ in_range ratio ->
  match scaled_word_count txt ratio with
  | Num _ => exists r, compress_text self now txt ratio = Ok (Some r)
  | Inf _ => compress_text self now txt ratio = Raise OverflowError
  | NaN => compress_text self now txt ratio = Raise ValueError
  end.
Proof.
  intros Hm Hne _. rewrite compress_text_unfold by done.
  destruct (scaled_word_count txt ratio); [|done..].
  destruct txt; [done|]. by eexists.
Qed.

Lemma compress_text_ratio_not_validated_witness :
  let txt := str "This is a very long text. It needs to be compressed" in
  mock_mode init = true /\ txt <> [] /\ ~ in_range (3 # 2)%Q /\
  exists r,
    compress_text init "2025-05-28T12:00:00" txt (3 # 2)%Q = Ok (Some r).
Proof.
  intros txt.
  assert (Hout : ~ in_range (3 # 2)%Q)
    by (intros [_ H]; apply H; reflexivity).
  split; [reflexivity|]. split; [discriminate|]. split; [exact Hout|].
  exact (compress_text_ratio_not_validated init "2025-05-28T12:00:00" txt
           (3 # 2)%Q eq_refl ltac:(discriminate) Hout).
Defined.

(** C2, as stated, fails: with ratio 1.5 the call returns a result. *)
Lemma compress_text_accepts_ratio_above_one :
  ~ ((0 < 3 # 2)%Q /\ (3 # 2 <= 1)%Q) /\
  compress_text init "2025-05-28T12:00:00" (str "One. Two. Three. Four")
    (3 # 2)
  = Ok (Some {| CompressionResult.compressed_text := str "One. Two.";
                CompressionResult.original_length := 21;
                CompressionResult.compressed_length := 9;
                CompressionResult.compression_ratio := 9 # 21;
                CompressionResult.timestamp := "2025-05-28T12:00:00" |})
  /\ forall e,
       compress_text init "2025-05-28T12:00:00"
         (str "One. Two. Three. Four") (3 # 2) <> Raise e.
Proof.
  split; [intros [_ H]; apply H; reflexivity|].
  split; [reflexivity|]. intros e. discriminate.
Qed.

(** C3: what the code does on the empty text. The final division
    [len(compressed) / len(text)] divides 1 by 0. *)
Theorem compress_text_empty_raises :
  compress_text init "2025-05-28T12:00:00" (str "") (1 # 2)
  = Raise ZeroDivisionError.
Proof. reflexivity. Qed.

(** C10 (as the code has it). Two calls on the same non-empty text
    whose ratios both leave the float [word_count * ratio] a number, as
    every ratio in (0,1] does, return results that agree on everything
    but the time stamp: the returned text is made of the first
    [max(1, n/2)] of the [n] sentence units of the input, whatever the
    ratio. *)
Theorem compress_text_independent_of_ratio
    self now1 now2 txt ratio1 ratio2 :
  mock_mode self = true ->
  txt <> [] ->
  is_num (scaled_word_count txt ratio1) ->
  is_num (scaled_word_count txt ratio2) ->
  (exists r1 r2,
     compress_text self now1 txt ratio1 = Ok (Some r1)
     /\ compress_text self now2 txt ratio2 = Ok (Some r2)
     /\ same_but_timestamp r1 r2
     /\ let sentences := Py.split_dot_space txt in
        let n := length sentences in
        CompressionResult.compressed_text r1
        = Py.join (str ". ") (take (Nat.max 1 (n / 2)) sentences) ++ str "."
        /\ CompressionResult.original_length r1 = length txt
        /\ CompressionResult.compressed_length r1
           = length (CompressionResult.compressed_text r1)
        /\ CompressionResult.compression_ratio r1
           = (Z.of_nat (CompressionResult.compressed_length r1)
              # Pos.of_nat (CompressionResult.original_length r1)))
  /\ forall ratio, in_range ratio -> is_num (scaled_word_count txt ratio).
Proof.
  intros Hm Hne H1 H2. split; [|intros ratio; apply scaled_word_count_in_range].
  rewrite !compress_text_mock by done. unfold returned.
  destruct txt; [done|]. eexists _, _.
  split; [reflexivity|]. split; [reflexivity|]. by repeat split.
Qed.

Lemma compress_text_independent_of_ratio_witness :
  let txt := str "One. Two. Three. Four" in
  mock_mode init = true /\ txt <> [] /\
  is_num (scaled_word_count txt (3 # 10)%Q) /\
  is_num (scaled_word_count txt (9 # 10)%Q) /\
  exists r1 r2,
    compress_text init "2025-05-28T12:00:00" txt (3 # 10)%Q = Ok (Some r1)
    /\ compress_text init "2025-05-29T08:30:00" txt (9 # 10)%Q = Ok (Some r2)
    /\ same_but_timestamp r1 r2
    /\ CompressionResult.compressed_text r1 = str "One. Two.".
Proof.
  intros txt.
  assert (H1 : is_num (scaled_word_count txt (3 # 10)%Q))
    by (eexists; vm_compute; reflexivity).
  assert (H2 : is_num (scaled_word_count txt (9 # 10)%Q))
    by (eexists; vm_compute; reflexivity).
  split; [reflexivity|]. split; [discriminate|].
  split; [exact H1|]. split; [exact H2|].
  destruct (proj1 (compress_text_independent_of_ratio init
                     "2025-05-28T12:00:00" "2025-05-29T08:30:00" txt
                     (3 # 10)%Q (9 # 10)%Q eq_refl ltac:(discriminate) H1 H2))
    as (r1 & r2 & Hr1 & Hr2 & Hsame & Htext & _).
  exists r1, r2. split; [exact Hr1|]. split; [exact Hr2|].
  split; [exact Hsame|]. rewrite Htext. reflexivity.
Defined.

(** C10, as stated, fails: of two calls on the same text, the one with
    ratio 0.5 returns a result while those with an infinite ratio, with
    a ratio of 1e308 and with NaN raise. *)
Lemma compress_text_depends_on_ratio :
  let txt := str "One two. Three" in
  (exists r, compress_text init "2025-05-28T12:00:00" txt (1 # 2)%Q
             = Ok (Some r))
  /\ compress_text init "2025-05-28T12:00:00" txt (Inf false)
     = Raise OverflowError
  /\ compress_text init "2025-05-28T12:00:00" txt (inject_Z (10 ^ 308))
     = Raise OverflowError
  /\ compress_text init "2025-05-28T12:00:00" txt NaN = Raise ValueError
  /\ ~ outcomes_agree
         (compress_text init "2025-05-28T12:00:00" txt (1 # 2)%Q)
         (compress_text init "2025-05-28T12:00:00" txt (Inf false)).
Proof.
  intros txt. split; [eexists; vm_compute; reflexivity|].
  split; [by vm_compute|]. split; [by vm_compute|]. split; [by vm_compute|].
  vm_compute. tauto.
Qed.

(** ** [get_compression_suggestions] *)

(** [msg['content']] cannot fail on a message the loop found long. *)
Lemma getitem_of_long msg :
  is_long msg = true ->
  Py.getitem msg "content" = Ok (Py.get msg "content" []).
Proof.
  unfold is_long, Py.getitem, Py.get.
  destruct (msg !! "content"); [done|]. simpl. discriminate.
Qed.

(** The loop never raises. *)
Lemma suggest_loop_ok msgs : forall i acc,
  suggest_loop i msgs acc = Ok (acc ++ long_messages i msgs).
Proof.
  induction msgs as [|msg rest IH]; intros i acc; simpl.
  - by rewrite app_nil_r.
  - fold (is_long msg). destruct (is_long msg) eqn:Hlong.
    + rewrite getitem_of_long by done. simpl.
      rewrite IH, <- app_assoc. reflexivity.
    + apply IH.
Qed.

Lemma elem_of_long_messages s msgs : forall i,
  s ∈ long_messages i msgs <->
  exists j msg, msgs !! j = Some msg /\ is_long msg = true
                /\ s = long_message (i + j) msg.
Proof.
  induction msgs as [|m rest IH]; intros i; simpl.
  - split; [by intros ?%elem_of_nil|]. by intros (j & msg & ? & _).
  - rewrite elem_of_app, IH. split.
    + intros [Hs|(j & msg & Hj & Hl & ->)].
      * destruct (is_long m) eqn:Hm; [|by apply elem_of_nil in Hs].
        apply list_elem_of_singleton in Hs as ->.
        exists 0, m. by rewrite Nat.add_0_r.
      * exists (S j), msg. repeat split; [done..|]. f_equal. lia.
    + intros ([|j] & msg & Hj & Hl & ->); simpl in Hj.
      * left. injection Hj as ->. rewrite Hl, Nat.add_0_r.
        by apply list_elem_of_singleton.
      * right. exists j, msg. repeat split; [done..|]. f_equal. lia.
Qed.

(** In mock mode the call always returns. *)
Lemma get_compression_suggestions_mock self now conversation threshold :
  mock_mode self = true ->
  get_compression_suggestions self now conversation threshold =
  let suggestions := long_messages 0 (all_but_last_10 conversation) in
  Ok (Some {| Suggestions.total_tokens :=
                Py.int (Py.sum (map estimated_tokens conversation));
              Suggestions.suggestions := suggestions;
              Suggestions.estimated_savings :=
                Py.sum (map Suggestion.potential_savings suggestions);
              Suggestions.timestamp := now |}).
Proof.
  intros Hm. unfold get_compression_suggestions.
  by rewrite Hm, suggest_loop_ok.
Qed.

(** *** The token total *)

Lemma fold_estimated_tokens conversation : forall acc,
  (fold_left Qplus (map estimated_tokens conversation) acc
   == acc + Py.float_of_nat (total_words conversation) * (13 # 10))%Q.
Proof.
  unfold total_words.
  induction conversation as [|msg rest IH]; intros acc; simpl.
  - unfold Py.float_of_nat. simpl. ring.
  - rewrite IH. unfold estimated_tokens, Py.float_of_nat.
    rewrite Nat2Z.inj_add, inject_Z_plus. ring.
Qed.

Lemma int_nonneg x : (0 <= x)%Q -> Py.int x = Qfloor x.
Proof.
  destruct x as [n d]. unfold Qle, Py.int, Qfloor. simpl. intros Hn.
  apply Z.quot_div_nonneg; lia.
Qed.

(** [total_tokens] of the model in closed form: thirteen tenths of the
    word count of the whole conversation, rounded down. *)
Lemma total_tokens_closed_form conversation :
  Py.int (Py.sum (map estimated_tokens conversation))
  = (13 * Z.of_nat (total_words conversation) / 10)%Z.
Proof.
  pose proof (fold_estimated_tokens conversation 0%Q) as Hsum.
  fold (Py.sum (map estimated_tokens conversation)) in Hsum.
  rewrite Qplus_0_l in Hsum.
  rewrite int_nonneg.
  - rewrite (Qfloor_comp _ _ Hsum). unfold Py.float_of_nat, Qfloor.
    simpl. f_equal. lia.
  - rewrite Hsum. apply Qmult_le_0_compat; [|done].
    unfold Py.float_of_nat, Qle. simpl. lia.
Qed.

(** *** The protected window *)

(** C5. No suggestion points into the last ten messages: every
    [message_index] returned is at least ten positions before the end
    of the conversation. *)
Theorem suggestions_avoid_last_10 self now conversation threshold :
  mock_mode self = true ->
  exists r,
    get_compression_suggestions self now conversation threshold
    = Ok (Some r)
    /\ forall s, s ∈ Suggestions.suggestions r ->
                 Suggestion.message_index s + 10 < length conversation.
Proof.
  intros Hm. rewrite get_compression_suggestions_mock by done.
  eexists. split; [reflexivity|]. cbn [Suggestions.suggestions].
  intros s (j & msg & Hj & _ & ->)%elem_of_long_messages.
  apply lookup_lt_Some in Hj. unfold all_but_last_10 in Hj.
  rewrite length_take in Hj. simpl. lia.
Qed.

Lemma suggestions_avoid_last_10_witness :
  mock_mode init = true /\
  exists r,
    get_compression_suggestions init "2025-05-28T12:00:00" long_then_ten
      (7 # 10) = Ok (Some r)
    /\ forall s, s ∈ Suggestions.suggestions r ->
                 Suggestion.message_index s + 10 < length long_then_ten.
Proof.
  split; [reflexivity|].
  apply suggestions_avoid_last_10. reflexivity.
Defined.

Example long_then_ten_run :
  exists r,
    get_compression_suggestions init "2025-05-28T12:00:00" long_then_ten
      (7 # 10) = Ok (Some r)
    /\ map Suggestion.message_index (Suggestions.suggestions r) = [0]
    /\ Suggestions.estimated_savings r = (600 # 2)%Q
    /\ Suggestions.total_tokens r = 169%Z.
Proof. eexists. split; [vm_compute; reflexivity|]. by repeat split. Qed.

(** *** The size cutoff *)

(** C7 (as the code has it). [threshold] plays no part: a message
    outside the protected window is suggested exactly when its content
    is longer than 500 characters, and every threshold yields the same
    suggestions. *)
Theorem suggestion_cutoff_ignores_threshold self now conversation threshold :
  mock_mode self = true ->
  (0 <= threshold)%Q -> (threshold <= 1)%Q ->
  exists r,
    get_compression_suggestions self now conversation threshold
    = Ok (Some r)
    /\ (forall i msg,
          conversation !! i = Some msg ->
          i + 10 < length conversation ->
          (exists s, s ∈ Suggestions.suggestions r
                     /\ Suggestion.message_index s = i)
          <-> 500 < length (Py.get msg "content" []))
    /\ forall threshold',
         exists r',
           get_compression_suggestions self now conversation threshold'
           = Ok (Some r')
           /\ Suggestions.suggestions r' = Suggestions.suggestions r.
Proof.
  intros Hm _ _. rewrite get_compression_suggestions_mock by done.
  eexists. split; [reflexivity|]. cbn [Suggestions.suggestions]. split.
  - intros i msg Hi Hwin.
    assert (Htake : all_but_last_10 conversation !! i = Some msg).
    { unfold all_but_last_10. rewrite lookup_take_lt by lia. done. }
    split.
    + intros (s & (j & msg' & Hj & Hlong & ->)%elem_of_long_messages & Hidx).
      simpl in Hidx. subst j. rewrite Htake in Hj. injection Hj as <-.
      by apply Nat.ltb_lt in Hlong.
    + intros Hlen. exists (long_message i msg). split; [|done].
      apply elem_of_long_messages. exists i, msg.
      split; [done|]. split; [by apply Nat.ltb_lt|done].
  - intros threshold'. rewrite get_compression_suggestions_mock by done.
    eexists. split; reflexivity.
Qed.

Lemma suggestion_cutoff_ignores_threshold_witness :
  mock_mode init = true /\ (0 <= 7 # 10)%Q /\ (7 # 10 <= 1)%Q /\
  exists r,
    get_compression_suggestions init "2025-05-28T12:00:00" long_then_ten
      (7 # 10) = Ok (Some r)
    /\ (forall i msg,
          long_then_ten !! i = Some msg ->
          i + 10 < length long_then_ten ->
          (exists s, s ∈ Suggestions.suggestions r
                     /\ Suggestion.message_index s = i)
          <-> 500 < length (Py.get msg "content" []))
    /\ forall threshold',
         exists r',
           get_compression_suggestions init "2025-05-28T12:00:00"
             long_then_ten threshold' = Ok (Some r')
           /\ Suggestions.suggestions r' = Suggestions.suggestions r.
Proof.
  split; [reflexivity|]. split; [discriminate|]. split; [discriminate|].
  apply suggestion_cutoff_ignores_threshold;
    [reflexivity|discriminate|discriminate].
Defined.

(** C7, as stated, fails: with threshold 0.5 the scaled cutoff is 250
    characters, the first message below is 300 characters long and lies
    outside the protected window, and yet nothing is suggested. *)
Lemma suggestion_cutoff_not_scaled :
  (0 <= 1 # 2)%Q /\ (1 # 2 <= 1)%Q /\
  medium_then_ten !! 0 = Some medium_message /\
  0 + 10 < length medium_then_ten /\
  (spec_size_cutoff (1 # 2)
   < Py.float_of_nat (length (Py.get medium_message "content" [])))%Q /\
  exists r,
    get_compression_suggestions init "2025-05-28T12:00:00" medium_then_ten
      (1 # 2) = Ok (Some r)
    /\ Suggestions.suggestions r = [].
Proof.
  split; [discriminate|]. split; [discriminate|]. split; [reflexivity|].
  split; [simpl; lia|]. split; [reflexivity|].
  eexists. split; [vm_compute; reflexivity|reflexivity].
Qed.

(** *** Short conversations *)




Example demo_total_tokens :
  exists r,
    get_compression_suggestions init "2025-05-28T12:00:00"
      demo_conversation (7 # 10) = Ok (Some r)
    /\ Suggestions.total_tokens r = 16%Z.
Proof. eexists. split; [vm_compute; reflexivity|reflexivity]. Qed.

(** ** [compress_conversation] *)

(** The extraction loop collects, in order, a snippet of every message
    that matches. *)
Lemma fold_extract messages : forall key_points decisions,
  fold_left extract messages (key_points, decisions)
  = (key_points ++ map snippet_of (List.filter is_key_point messages),
     decisions ++ map snippet_of (List.filter is_decision messages)).
Proof.
  induction messages as [|msg rest IH]; intros key_points decisions.
  - simpl. by rewrite !app_nil_r.
  - cbn [fold_left List.filter]. unfold extract at 2.
    fold (content_of msg). fold (is_decision msg). fold (is_key_point msg).
    fold (snippet_of msg). rewrite IH.
    destruct (is_key_point msg), (is_decision msg); simpl;
      by rewrite <- ?app_assoc.
Qed.

(** In mock mode the call always returns. *)
Lemma compress_conversation_mock self now messages max_tokens :
  mock_mode self = true ->
  compress_conversation self now messages max_tokens =
  Ok (Some {| ConversationSummary.summary :=
                str "Conversation with " ++ str (pretty (length messages))
                ++ str " messages";
              ConversationSummary.key_points :=
                take 5 (map snippet_of (List.filter is_key_point messages));
              ConversationSummary.decisions :=
                take 3 (map snippet_of (List.filter is_decision messages));
              ConversationSummary.message_count := length messages;
              ConversationSummary.compression_ratio := (1 # 10)%Q;
              ConversationSummary.timestamp := now |}).
Proof.
  intros Hm. unfold compress_conversation. by rewrite Hm, fold_extract.
Qed.

(** C6. Whatever the number of messages, the summary holds at most five
    key points and at most three decisions. *)
Theorem summary_caps self now messages max_tokens :
  mock_mode self = true ->
  exists r,
    compress_conversation self now messages max_tokens = Ok (Some r)
    /\ length (ConversationSummary.key_points r) <= 5
    /\ length (ConversationSummary.decisions r) <= 3.
Proof.
  intros Hm. rewrite compress_conversation_mock by done.
  eexists. split; [reflexivity|]. simpl. rewrite !length_take. lia.
Qed.

Lemma summary_caps_witness :
  mock_mode init = true /\
  exists r,
    compress_conversation init "2025-05-28T12:00:00" seven_matches 1000
    = Ok (Some r)
    /\ length (ConversationSummary.key_points r) <= 5
    /\ length (ConversationSummary.decisions r) <= 3.
Proof.
  split; [reflexivity|]. apply summary_caps. reflexivity.
Defined.

Example seven_matches_capped :
  exists r,
    compress_conversation init "2025-05-28T12:00:00" seven_matches 1000
    = Ok (Some r)
    /\ length (ConversationSummary.key_points r) = 5
    /\ length (ConversationSummary.decisions r) = 3
    /\ ConversationSummary.message_count r = 7.
Proof. eexists. split; [vm_compute; reflexivity|]. by repeat split. Qed.

(** C4 (as the code has it). The reported [compression_ratio] is the
    constant 0.1, whatever the messages and [max_tokens]. *)
Theorem conversation_ratio_constant self now messages max_tokens :
  mock_mode self = true ->
  exists r,
    compress_conversation self now messages max_tokens = Ok (Some r)
    /\ ConversationSummary.compression_ratio r = (1 # 10)%Q.
Proof.
  intros Hm. rewrite compress_conversation_mock by done.
  eexists. split; reflexivity.
Qed.

Lemma conversation_ratio_constant_witness :
  mock_mode init = true /\
  exists r,
    compress_conversation init "2025-05-28T12:00:00" demo_conversation 1000
    = Ok (Some r)
    /\ ConversationSummary.compression_ratio r = (1 # 10)%Q.
Proof.
  split; [reflexivity|]. apply conversation_ratio_constant. reflexivity.
Defined.

(** C4, as stated, fails: on the conversation of the usage example the
    summary is estimated at 22.1 tokens and the messages at 16.9, a
    quotient of 17/13, while the call reports 0.1. *)
Lemma conversation_ratio_not_estimated :
  exists r,
    compress_conversation init "2025-05-28T12:00:00" demo_conversation 1000
    = Ok (Some r)
    /\ (spec_achieved_ratio demo_conversation r == 17 # 13)%Q
    /\ ~ (ConversationSummary.compression_ratio r
          == spec_achieved_ratio demo_conversation r)%Q.
Proof.
  eexists. split; [vm_compute; reflexivity|]. split; [reflexivity|].
  intros H. vm_compute in H. discriminate.
Qed.

(** ** Messages without content *)

Lemma content_of_missing (m : Message) :
  m !! "content" = None -> content_of m = [].
Proof. unfold content_of, Py.get. by intros ->. Qed.

Lemma total_words_app (l1 l2 : list Message) :
  total_words (l1 ++ l2) = total_words l1 + total_words l2.
Proof. unfold total_words. by rewrite map_app, sum_list_with_app. Qed.

Lemma total_words_without (pre post : list Message) (m : Message) :
  m !! "content" = None ->
  total_words (pre ++ m :: post) = total_words (pre ++ post).
Proof.
  intros Hm. rewrite !total_words_app. f_equal.
  unfold total_words. simpl. fold (content_of m).
  by rewrite content_of_missing.
Qed.

Lemma filter_without (f : Message -> bool) (pre post : list Message) m :
  f m = false ->
  List.filter f (pre ++ m :: post) = List.filter f (pre ++ post).
Proof. intros Hf. rewrite !List.filter_app. simpl. by rewrite Hf. Qed.

(** C9. A message without the [content] key makes neither operation
    raise. It counts as empty: it adds nothing to [total_tokens], no
    suggestion points at it, and the key points and decisions are those
    of the conversation without it. *)
Theorem missing_content_is_empty
    self now (pre post : list Message) (m : Message) threshold max_tokens :
  mock_mode self = true ->
  m !! "content" = None ->
  exists rs rs' rc rc',
    get_compression_suggestions self now (pre ++ m :: post) threshold
    = Ok (Some rs)
    /\ get_compression_suggestions self now (pre ++ post) threshold
       = Ok (Some rs')
    /\ compress_conversation self now (pre ++ m :: post) max_tokens
       = Ok (Some rc)
    /\ compress_conversation self now (pre ++ post) max_tokens
       = Ok (Some rc')
    /\ (estimated_tokens m == 0)%Q
    /\ Suggestions.total_tokens rs = Suggestions.total_tokens rs'
    /\ (forall s, s ∈ Suggestions.suggestions rs ->
                  Suggestion.message_index s <> length pre)
    /\ ConversationSummary.key_points rc = ConversationSummary.key_points rc'
    /\ ConversationSummary.decisions rc = ConversationSummary.decisions rc'.
Proof.
  intros Hmock Hm.
  pose proof (content_of_missing m Hm) as Hc.
  rewrite !get_compression_suggestions_mock by done.
  rewrite !compress_conversation_mock by done.
  do 4 eexists. do 4 (split; [reflexivity|]).
  cbn [Suggestions.total_tokens Suggestions.suggestions
       ConversationSummary.key_points ConversationSummary.decisions].
  split; [|split; [|split; [|split]]].
  - unfold estimated_tokens. fold (content_of m). by rewrite Hc.
  - by rewrite !total_tokens_closed_form, total_words_without.
  - intros s (j & msg & Hj & Hlong & ->)%elem_of_long_messages Hidx.
    simpl in Hidx. subst j. unfold all_but_last_10 in Hj.
    apply lookup_take_Some in Hj as [Hj _].
    rewrite list_lookup_middle in Hj by done. injection Hj as <-.
    unfold is_long in Hlong. fold (content_of m) in Hlong.
    by rewrite Hc in Hlong.
  - rewrite (filter_without is_key_point); [done|].
    unfold is_key_point. by rewrite Hc.
  - rewrite (filter_without is_decision); [done|].
    unfold is_decision. by rewrite Hc.
Qed.

Lemma missing_content_is_empty_witness :
  mock_mode init = true /\ no_content !! "content" = None /\
  exists rs rs' rc rc',
    get_compression_suggestions init "2025-05-28T12:00:00"
      (demo_conversation ++ no_content :: long_then_ten) (7 # 10)
    = Ok (Some rs)
    /\ get_compression_suggestions init "2025-05-28T12:00:00"
         (demo_conversation ++ long_then_ten) (7 # 10)
       = Ok (Some rs')
    /\ compress_conversation init "2025-05-28T12:00:00"
         (demo_conversation ++ no_content :: long_then_ten) 1000
       = Ok (Some rc)
    /\ compress_conversation init "2025-05-28T12:00:00"
         (demo_conversation ++ long_then_ten) 1000
       = Ok (Some rc')
    /\ (estimated_tokens no_content == 0)%Q
    /\ Suggestions.total_tokens rs = Suggestions.total_tokens rs'
    /\ (forall s, s ∈ Suggestions.suggestions rs ->
                  Suggestion.message_index s <> length demo_conversation)
    /\ ConversationSummary.key_points rc = ConversationSummary.key_points rc'
    /\ ConversationSummary.decisions rc = ConversationSummary.decisions rc'.
Proof.
  split; [reflexivity|]. split; [reflexivity|].
  apply missing_content_is_empty; reflexivity.
Defined.

Example missing_content_run :
  exists rs,
    get_compression_suggestions init "2025-05-28T12:00:00"
      (demo_conversation ++ no_content :: long_then_ten) (7 # 10)
    = Ok (Some rs)
    /\ Suggestions.total_tokens rs = 185%Z
    /\ map Suggestion.message_index (Suggestions.suggestions rs) = [3]
    /\ Suggestions.estimated_savings rs = (600 # 2)%Q.
Proof. eexists. split; [vm_compute; reflexivity|]. by repeat split. Qed.


(** * Further properties of the client *)

(** ** Client state *)

Lemma connect_times_mock_mode n self :
  mock_mode (connect_times n self) = mock_mode self.
Proof. induction n as [|n IH]; [done|]. simpl. exact IH. Qed.

Lemma connect_times_connected n self :
  connected (connect_times n self)
  = if (n =? 0)%nat then connected self else true.
Proof. by destruct n. Qed.

(** X1. After any number of [connect] calls on a new client,
    [get_stats] reports mock mode, and reports the client connected
    exactly when [connect] was called at least once; every [connect]
    returns [True]. *)
Theorem get_stats_after_connects n now :
  get_stats (connect_times n init) now
  = {| Stats.connected := negb (n =? 0)%nat;
       Stats.mock_mode := true;
       Stats.timestamp := now |}
  /\ (connect (connect_times n init)).2 = true.
Proof.
  unfold get_stats.
  rewrite connect_times_mock_mode, connect_times_connected.
  by destruct n.
Qed.

(** X2. However often [connect] was called on a new client, the three
    operations stay on the mock path: [get_compression_suggestions] and
    [compress_conversation] always return a result, and so does
    [compress_text] on a non-empty text with a ratio in (0,1]. *)
Theorem operations_after_connects n now txt ratio conversation threshold
    max_tokens :
  let self := connect_times n init in
  (txt <> [] -> in_range ratio ->
   exists r, compress_text self now txt ratio = Ok (Some r))
  /\ (exists r, get_compression_suggestions self now conversation threshold
                = Ok (Some r))
  /\ (exists r, compress_conversation self now conversation max_tokens
                = Ok (Some r)).
Proof.
  intros self.
  assert (Hm : mock_mode self = true)
    by (unfold self; by rewrite connect_times_mock_mode).
  split; [|split].
  - intros Hne Hr.
    rewrite compress_text_mock by (done || by apply scaled_word_count_in_range).
    destruct txt; [done|simpl; eauto].
  - rewrite get_compression_suggestions_mock by done. eauto.
  - rewrite compress_conversation_mock by done. eauto.
Qed.

Lemma operations_after_connects_witness :
  str "One. Two" <> [] /\ in_range (1 # 2)%Q /\
  exists r,
    compress_text (connect_times 3 init) "2025-05-28T12:00:00"
      (str "One. Two") (1 # 2)%Q = Ok (Some r).
Proof.
  assert (Hr : in_range (1 # 2)%Q) by (split; [reflexivity|discriminate]).
  split; [discriminate|]. split; [exact Hr|].
  exact (proj1 (operations_after_connects 3 "2025-05-28T12:00:00"
                  (str "One. Two") (1 # 2)%Q [] (7 # 10) 1000)
               ltac:(discriminate) Hr).
Defined.

(** ** Errors of [compress_text] *)

(** X3. In mock mode [compress_text] raises in three cases and no
    other: [OverflowError] when the float [word_count * ratio] is
    infinite, [ValueError] when it is NaN, and [ZeroDivisionError] when
    it is a number and the text is empty. Outside mock mode it returns
    [None] for every text and ratio. *)
Theorem compress_text_raises_iff self now txt ratio e :
  (compress_text self now txt ratio = Raise e
   <-> mock_mode self = true
       /\ match scaled_word_count txt ratio with
          | Num _ => txt = [] /\ e = ZeroDivisionError
          | Inf _ => e = OverflowError
          | NaN => e = ValueError
          end)
  /\ (mock_mode self = false -> compress_text self now txt ratio = Ok None).
Proof.
  split.
  - destruct (mock_mode self) eqn:Hm.
    + rewrite compress_text_unfold by done.
      destruct (scaled_word_count txt ratio).
      * destruct txt; simpl; split; try discriminate.
        -- by intros [= <-].
        -- by intros [_ [_ ->]].
        -- by intros [_ [? _]].
      * split; [by intros [= <-]|by intros [_ ->]].
      * split; [by intros [= <-]|by intros [_ ->]].
    + unfold compress_text. rewrite Hm. split; [discriminate|].
      by intros (? & _).
  - intros Hm. unfold compress_text. by rewrite Hm.
Qed.

Lemma compress_text_raises_iff_witness :
  mock_mode {| connected := true; mock_mode := false |} = false /\
  compress_text {| connected := true; mock_mode := false |}
    "2025-05-28T12:00:00" (str "") NaN = Ok None.
Proof.
  split; [reflexivity|].
  exact (proj2 (compress_text_raises_iff
                  {| connected := true; mock_mode := false |}
                  "2025-05-28T12:00:00" (str "") NaN ValueError)
               eq_refl).
Defined.

(** The product for the ratios that are not numbers, and for a number
    on a text without words. *)
Example scaled_word_count_cases :
  scaled_word_count (str "") NaN = NaN
  /\ scaled_word_count (str "") (Inf false) = NaN
  /\ scaled_word_count (str "a") (Inf true) = Inf true
  /\ scaled_word_count (str "a b") (inject_Z (10 ^ 308)) = Inf false
  /\ scaled_word_count (str "a") (inject_Z (10 ^ 308))
     = Num (inject_Z (10 ^ 308))
  /\ scaled_word_count (str "a b c") (3 # 2)%Q = Num (9 # 2)%Q.
Proof. by vm_compute. Qed.

(** ** The text kept by [compress_text] *)

Section Pieces.

Implicit Types (s cur sep p : text) (parts : list text).

Lemma join_snoc sep parts p :
  parts <> [] ->
  Py.join sep (parts ++ [p]) = Py.join sep parts ++ sep ++ p.
Proof.
  induction parts as [|q [|q' rest] IH]; intros Hne; [done|done|].
  change ((q :: q' :: rest) ++ [p]) with (q :: (q' :: rest) ++ [p]).
  change ((q' :: rest) ++ [p]) with (q' :: rest ++ [p]) at 1.
  rewrite !join_cons.
  change (q' :: rest ++ [p]) with ((q' :: rest) ++ [p]).
  rewrite IH by done. by rewrite <- !app_assoc.
Qed.

(** The rejoined leading pieces are a prefix of the rejoined whole. *)
Lemma join_take_prefix sep parts : forall k,
  Py.join sep (take k parts) `prefix_of` Py.join sep parts.
Proof.
  induction parts as [|p [|q rest] IH]; intros k.
  - by rewrite take_nil.
  - destruct k as [|k]; [apply prefix_nil|].
    change (take (S k) [p]) with (p :: take k []). by rewrite take_nil.
  - destruct k as [|[|k]]; [apply prefix_nil| |].
    + rewrite join_cons. simpl. by apply prefix_app_r.
    + change (take (S (S k)) (p :: q :: rest))
        with (p :: q :: take k rest).
      rewrite !join_cons. apply prefix_app, prefix_app.
      exact (IH (S k)).
Qed.

(** Scanning a text that continues with the separator: the pieces of
    the part before it, then the pieces of the part after it. *)
Lemma split_dot_space_go_app n : forall s cur rest,
  length s <= n ->
  Py.split_dot_space_go cur (s ++ str ". " ++ rest)
  = Py.split_dot_space_go cur s ++ Py.split_dot_space_go [] rest.
Proof.
  induction n as [|n IH]; intros s cur rest Hn.
  - destruct s; simpl in Hn; [done|lia].
  - destruct s as [|c [|d s'']]; [done| |].
    + change ([c] ++ str ". " ++ rest) with (c :: "."%char :: " "%char :: rest).
      rewrite split_dot_space_go_step.
      change (Ascii.eqb "." " ") with false. rewrite andb_false_r.
      reflexivity.
    + change ((c :: d :: s'') ++ str ". " ++ rest)
        with (c :: d :: (s'' ++ str ". " ++ rest)).
      rewrite !split_dot_space_go_step. simpl in Hn.
      destruct (Ascii.eqb c "." && Ascii.eqb d " ").
      * rewrite IH by lia. reflexivity.
      * change (d :: s'' ++ str ". " ++ rest)
          with ((d :: s'') ++ str ". " ++ rest).
        apply IH. simpl. lia.
Qed.

Lemma split_dot_space_app s rest :
  Py.split_dot_space (s ++ str ". " ++ rest)
  = Py.split_dot_space s ++ Py.split_dot_space rest.
Proof. exact (split_dot_space_go_app (length s) s [] rest (le_n _)). Qed.

(** A full stop added at the end lands in the last piece. *)
Lemma split_dot_space_go_snoc_dot n : forall s cur,
  length s <= n ->
  exists parts p,
    Py.split_dot_space_go cur s = parts ++ [p]
    /\ Py.split_dot_space_go cur (s ++ str ".") = parts ++ [p ++ str "."].
Proof.
  induction n as [|n IH]; intros s cur Hn.
  - destruct s; simpl in Hn; [|lia]. by exists [], cur.
  - destruct s as [|c [|d s'']].
    + by exists [], cur.
    + exists [], (cur ++ [c]). split; [done|].
      change ([c] ++ str ".") with [c; "."%char].
      rewrite split_dot_space_go_step.
      change (Ascii.eqb "." " ") with false. by rewrite andb_false_r.
    + change ((c :: d :: s'') ++ str ".") with (c :: d :: (s'' ++ str ".")).
      rewrite !split_dot_space_go_step. simpl in Hn.
      destruct (Ascii.eqb c "." && Ascii.eqb d " ").
      * destruct (IH s'' [] ltac:(lia)) as (parts & p & -> & ->).
        by exists (cur :: parts), p.
      * change (d :: s'' ++ str ".") with ((d :: s'') ++ str ".").
        apply IH. simpl. lia.
Qed.

Lemma split_dot_space_snoc_dot s :
  exists parts p,
    Py.split_dot_space s = parts ++ [p]
    /\ Py.split_dot_space (s ++ str ".") = parts ++ [p ++ str "."].
Proof. exact (split_dot_space_go_snoc_dot (length s) s [] (le_n _)). Qed.

Lemma stable_split s : stable (Py.split_dot_space s).
Proof. unfold stable. by rewrite join_split_dot_space. Qed.

Lemma stable_init parts p :
  parts <> [] -> stable (parts ++ [p]) -> stable parts.
Proof.
  unfold stable. intros Hne Hst.
  rewrite join_snoc, split_dot_space_app in Hst by done.
  pose proof (join_split_dot_space p) as Hj.
  destruct (Py.split_dot_space p) as [|z l] eqn:Hp using rev_ind.
  - destruct (split_dot_space_go_cons [] p) as (? & ? & Hc).
    unfold Py.split_dot_space in Hp. congruence.
  - clear IHl. rewrite app_assoc in Hst.
    apply app_inj_tail in Hst as [Hst ->].
    destruct l as [|q l].
    + by rewrite app_nil_r in Hst.
    + rewrite join_snoc in Hj by done.
      apply (f_equal length) in Hj. rewrite !length_app in Hj.
      simpl in Hj. lia.
Qed.

Lemma stable_take parts :
  stable parts -> forall k, 1 <= k -> stable (take k parts).
Proof.
  induction parts as [|p parts IH] using rev_ind; intros Hst k Hk.
  - by rewrite take_nil.
  - destruct (decide (length parts < k)) as [Hlt|Hge].
    + rewrite take_ge; [done|]. rewrite length_app. simpl. lia.
    + rewrite take_app_le by lia.
      apply IH; [|done]. apply (stable_init parts p); [|done].
      intros ->. simpl in Hge. lia.
Qed.

End Pieces.

Lemma kept_sentences_eq txt :
  kept_sentences txt
  = Py.join (str ". ") (take (kept_count txt) (Py.split_dot_space txt))
    ++ str ".".
Proof. reflexivity. Qed.

(** X4. For a ratio that leaves [word_count * ratio] a number, the
    text [compress_text] returns is a prefix of the input followed by
    one full stop: nothing is reordered or rewritten, the input is only
    cut. When the input holds no ". " the prefix is the whole input. *)
Theorem compress_text_keeps_prefix self now txt ratio :
  mock_mode self = true -> txt <> [] ->
  is_num (scaled_word_count txt ratio) ->
  exists r kept,
    compress_text self now txt ratio = Ok (Some r)
    /\ CompressionResult.compressed_text r = kept ++ str "."
    /\ kept `prefix_of` txt
    /\ (Py.contains (str ". ") txt = false -> kept = txt).
Proof.
  intros Hm Hne Hnum. rewrite compress_text_mock by done. unfold returned.
  destruct txt as [|c txt']; [done|]. set (txt := c :: txt') in *.
  eexists _, _. split; [reflexivity|]. cbn [CompressionResult.compressed_text].
  split; [apply kept_sentences_eq|]. split.
  - pose proof (join_take_prefix (str ". ") (Py.split_dot_space txt)
                  (kept_count txt)) as Hp.
    by rewrite join_split_dot_space in Hp.
  - intros Hc. pose proof (split_dot_space_count txt) as Hn.
    rewrite Hc in Hn. pose proof (join_split_dot_space txt) as Hj.
    unfold kept_count. rewrite Hn.
    destruct (Py.split_dot_space txt) as [|p [|q rest]]; by simpl in *.
Qed.

Lemma compress_text_keeps_prefix_witness :
  mock_mode init = true /\ str "One. Two. Three. Four" <> [] /\
  is_num (scaled_word_count (str "One. Two. Three. Four") (1 # 2)%Q) /\
  exists r kept,
    compress_text init "2025-05-28T12:00:00" (str "One. Two. Three. Four")
      (1 # 2)%Q = Ok (Some r)
    /\ CompressionResult.compressed_text r = kept ++ str "."
    /\ kept `prefix_of` str "One. Two. Three. Four"
    /\ (Py.contains (str ". ") (str "One. Two. Three. Four") = false
        -> kept = str "One. Two. Three. Four").
Proof.
  assert (Hnum : is_num (scaled_word_count (str "One. Two. Three. Four")
                           (1 # 2)%Q))
    by (eexists; vm_compute; reflexivity).
  split; [reflexivity|]. split; [discriminate|]. split; [exact Hnum|].
  apply compress_text_keeps_prefix; [reflexivity|discriminate|exact Hnum].
Defined.

(** X5. For a ratio that leaves [word_count * ratio] a number,
    splitting the returned text at ". " again gives exactly the leading
    [max(1, n // 2)] sentence units of the input, the last of them with
    the added full stop: compression halves the number of units and
    never merges or breaks one. *)
Theorem compress_text_halves_units self now txt ratio :
  mock_mode self = true -> txt <> [] ->
  is_num (scaled_word_count txt ratio) ->
  exists r parts p,
    compress_text self now txt ratio = Ok (Some r)
    /\ take (kept_count txt) (Py.split_dot_space txt) = parts ++ [p]
    /\ Py.split_dot_space (CompressionResult.compressed_text r)
       = parts ++ [p ++ str "."]
    /\ length (Py.split_dot_space (CompressionResult.compressed_text r))
       = Nat.max 1 (length (Py.split_dot_space txt) / 2).
Proof.
  intros Hm Hne Hnum. rewrite compress_text_mock by done. unfold returned.
  destruct txt as [|c txt']; [done|]. set (txt := c :: txt') in *.
  pose proof (stable_take _ (stable_split txt) (kept_count txt)
                ltac:(unfold kept_count; lia)) as Hst.
  unfold stable in Hst.
  destruct (split_dot_space_snoc_dot
              (Py.join (str ". ")
                 (take (kept_count txt) (Py.split_dot_space txt))))
    as (parts & p & Hparts & Hdot).
  rewrite Hst in Hparts.
  eexists _, parts, p. split; [reflexivity|].
  cbn [CompressionResult.compressed_text]. rewrite kept_sentences_eq, Hdot.
  split; [done|]. split; [done|].
  apply (f_equal length) in Hparts.
  rewrite length_take, !length_app in Hparts. rewrite length_app.
  cbn [length] in *. fold (kept_count txt).
  assert (kept_count txt <= length (Py.split_dot_space txt)); [|lia].
  unfold kept_count.
  destruct (split_dot_space_go_cons [] txt) as (q & rest & Hq).
  unfold Py.split_dot_space. rewrite Hq. cbn [length].
  pose proof (Nat.Div0.div_le_upper_bound (S (length rest)) 2
                (S (length rest))).
  lia.
Qed.

Lemma compress_text_halves_units_witness :
  mock_mode init = true /\ str "One. Two. Three. Four" <> [] /\
  is_num (scaled_word_count (str "One. Two. Three. Four") (1 # 2)%Q) /\
  exists r parts p,
    compress_text init "2025-05-28T12:00:00" (str "One. Two. Three. Four")
      (1 # 2)%Q = Ok (Some r)
    /\ take (kept_count (str "One. Two. Three. Four"))
         (Py.split_dot_space (str "One. Two. Three. Four")) = parts ++ [p]
    /\ Py.split_dot_space (CompressionResult.compressed_text r)
       = parts ++ [p ++ str "."]
    /\ length (Py.split_dot_space (CompressionResult.compressed_text r))
       = Nat.max 1
           (length (Py.split_dot_space (str "One. Two. Three. Four")) / 2).
Proof.
  assert (Hnum : is_num (scaled_word_count (str "One. Two. Three. Four")
                           (1 # 2)%Q))
    by (eexists; vm_compute; reflexivity).
  split; [reflexivity|]. split; [discriminate|]. split; [exact Hnum|].
  apply compress_text_halves_units; [reflexivity|discriminate|exact Hnum].
Defined.

(** ** The suggestions and the messages they point to *)

Lemma long_messages_app b : forall a i,
  long_messages i (a ++ b)
  = long_messages i a ++ long_messages (i + length a) b.
Proof.
  induction a as [|m a IH]; intros i; simpl.
  - by rewrite Nat.add_0_r.
  - rewrite IH, <- app_assoc. do 3 f_equal. lia.
Qed.

Lemma long_messages_length msgs : forall i,
  length (long_messages i msgs) = length (List.filter is_long msgs).
Proof.
  induction msgs as [|m msgs IH]; intros i; simpl; [done|].
  rewrite length_app, IH. by destruct (is_long m).
Qed.

Lemma filter_length_le {A} (f : A -> bool) (l : list A) :
  length (List.filter f l) <= length l.
Proof.
  induction l as [|x l IH]; simpl; [done|]. destruct (f x); simpl; lia.
Qed.

Lemma long_messages_index_ge s msgs i :
  s ∈ long_messages i msgs -> i <= Suggestion.message_index s.
Proof.
  intros (j & msg & _ & _ & ->)%elem_of_long_messages. simpl. lia.
Qed.

Lemma long_messages_increasing msgs : forall i j k s t,
  long_messages i msgs !! j = Some s ->
  long_messages i msgs !! k = Some t ->
  j < k ->
  Suggestion.message_index s < Suggestion.message_index t.
Proof.
  induction msgs as [|m msgs IH]; intros i j k s t Hj Hk Hjk; [done|].
  simpl in Hj, Hk. destruct (is_long m).
  - destruct k as [|k]; [lia|]. simpl in Hk.
    destruct j as [|j]; simpl in Hj.
    + injection Hj as <-. simpl.
      apply list_elem_of_lookup_2, long_messages_index_ge in Hk. lia.
    + apply (IH (S i) j k); [done..|lia].
  - simpl in Hj, Hk. by apply (IH (S i) j k).
Qed.

Lemma all_but_last_10_length {A} (l : list A) :
  length (all_but_last_10 l) = length l - 10.
Proof. unfold all_but_last_10. rewrite length_take. lia. Qed.

(** X6. Every suggestion describes the message at its [message_index]:
    that message has more than 500 characters of content, the
    [potential_savings] are half that number of characters, and the
    [reason] is always "Long message". *)
Theorem suggestion_describes_message self now conversation threshold :
  mock_mode self = true ->
  exists r,
    get_compression_suggestions self now conversation threshold = Ok (Some r)
    /\ forall s, s ∈ Suggestions.suggestions r ->
         exists msg,
           conversation !! Suggestion.message_index s = Some msg
           /\ 500 < length (content_of msg)
           /\ Suggestion.potential_savings s
              = (Py.float_of_nat (length (content_of msg)) * (1 # 2))%Q
           /\ Suggestion.reason s = str "Long message".
Proof.
  intros Hm. rewrite get_compression_suggestions_mock by done.
  eexists. split; [reflexivity|]. cbn [Suggestions.suggestions].
  intros s (j & msg & Hj & Hl & ->)%elem_of_long_messages.
  exists msg. unfold all_but_last_10 in Hj.
  apply lookup_take_Some in Hj as [Hj _].
  split; [done|]. split; [by apply Nat.ltb_lt|done].
Qed.

Lemma suggestion_describes_message_witness :
  mock_mode init = true /\
  exists r,
    get_compression_suggestions init "2025-05-28T12:00:00" long_then_ten
      (7 # 10) = Ok (Some r)
    /\ forall s, s ∈ Suggestions.suggestions r ->
         exists msg,
           long_then_ten !! Suggestion.message_index s = Some msg
           /\ 500 < length (content_of msg)
           /\ Suggestion.potential_savings s
              = (Py.float_of_nat (length (content_of msg)) * (1 # 2))%Q
           /\ Suggestion.reason s = str "Long message".
Proof.
  split; [reflexivity|]. apply suggestion_describes_message. reflexivity.
Defined.

(** X7. The suggestions are listed by strictly increasing
    [message_index], so no message is suggested twice, and there are at
    most [max(0, len(conversation) - 10)] of them: none for ten
    messages or fewer. *)
Theorem suggestions_increasing self now conversation threshold :
  mock_mode self = true ->
  exists r,
    get_compression_suggestions self now conversation threshold = Ok (Some r)
    /\ (forall j k s t,
          Suggestions.suggestions r !! j = Some s ->
          Suggestions.suggestions r !! k = Some t ->
          j < k ->
          Suggestion.message_index s < Suggestion.message_index t)
    /\ (Z.of_nat (length (Suggestions.suggestions r))
        <= Z.max 0 (Z.of_nat (length conversation) - 10))%Z.
Proof.
  intros Hm. rewrite get_compression_suggestions_mock by done.
  eexists. split; [reflexivity|]. cbn [Suggestions.suggestions]. split.
  - intros j k s t. apply long_messages_increasing.
  - rewrite long_messages_length.
    pose proof (filter_length_le is_long (all_but_last_10 conversation)).
    pose proof (all_but_last_10_length conversation). lia.
Qed.

Lemma suggestions_increasing_witness :
  mock_mode init = true /\
  exists r,
    get_compression_suggestions init "2025-05-28T12:00:00" long_then_ten
      (7 # 10) = Ok (Some r)
    /\ (forall j k s t,
          Suggestions.suggestions r !! j = Some s ->
          Suggestions.suggestions r !! k = Some t ->
          j < k ->
          Suggestion.message_index s < Suggestion.message_index t)
    /\ (Z.of_nat (length (Suggestions.suggestions r))
        <= Z.max 0 (Z.of_nat (length long_then_ten) - 10))%Z.
Proof.
  split; [reflexivity|]. apply suggestions_increasing. reflexivity.
Defined.

(** *** The savings total *)

Lemma long_messages_savings msgs : forall i,
  map Suggestion.potential_savings (long_messages i msgs)
  = map (fun msg => (Py.float_of_nat (length (content_of msg)) * (1 # 2))%Q)
      (List.filter is_long msgs).
Proof.
  induction msgs as [|m msgs IH]; intros i; simpl; [done|].
  rewrite map_app, IH. by destruct (is_long m).
Qed.

Lemma fold_half_lengths (msgs : list Message) : forall acc,
  (fold_left Qplus
     (map (fun msg => Py.float_of_nat (length (content_of msg)) * (1 # 2))
        msgs) acc
   == acc + Py.float_of_nat
              (sum_list (map (fun msg => length (content_of msg)) msgs))
            * (1 # 2))%Q.
Proof.
  induction msgs as [|m msgs IH]; intros acc; simpl.
  - unfold Py.float_of_nat. simpl. ring.
  - rewrite IH. unfold Py.float_of_nat.
    rewrite Nat2Z.inj_add, inject_Z_plus. ring.
Qed.

Lemma sum_lengths_long (msgs : list Message) :
  501 * length (List.filter is_long msgs)
  <= sum_list (map (fun msg => length (content_of msg))
                 (List.filter is_long msgs)).
Proof.
  induction msgs as [|m msgs IH]; simpl; [lia|].
  destruct (is_long m) eqn:Hl; [|done]. simpl.
  apply Nat.ltb_lt in Hl. fold (content_of m) in Hl. lia.
Qed.

(** X8. [estimated_savings] is half the number of characters of the
    messages that were suggested, and therefore at least 250.5 for
    every suggestion returned. *)
Theorem estimated_savings_closed_form self now conversation threshold :
  mock_mode self = true ->
  exists r,
    get_compression_suggestions self now conversation threshold = Ok (Some r)
    /\ (Suggestions.estimated_savings r
        == Py.float_of_nat
             (sum_list (map (fun msg => length (content_of msg))
                          (List.filter is_long
                             (all_but_last_10 conversation))))
           * (1 # 2))%Q
    /\ ((501 # 2) * Py.float_of_nat (length (Suggestions.suggestions r))
        <= Suggestions.estimated_savings r)%Q.
Proof.
  intros Hm. rewrite get_compression_suggestions_mock by done.
  eexists. split; [reflexivity|].
  cbn [Suggestions.suggestions Suggestions.estimated_savings].
  set (msgs := all_but_last_10 conversation).
  assert (Hsum :
    (Py.sum (map Suggestion.potential_savings (long_messages 0 msgs))
     == Py.float_of_nat
          (sum_list (map (fun msg => length (content_of msg))
                       (List.filter is_long msgs)))
        * (1 # 2))%Q).
  { rewrite long_messages_savings. unfold Py.sum.
    rewrite fold_half_lengths. ring. }
  split; [exact Hsum|].
  rewrite Hsum, long_messages_length.
  pose proof (sum_lengths_long msgs) as Hle.
  unfold Py.float_of_nat, Qle. simpl. lia.
Qed.

Lemma estimated_savings_closed_form_witness :
  mock_mode init = true /\
  exists r,
    get_compression_suggestions init "2025-05-28T12:00:00" long_then_ten
      (7 # 10) = Ok (Some r)
    /\ (Suggestions.estimated_savings r
        == Py.float_of_nat
             (sum_list (map (fun msg => length (content_of msg))
                          (List.filter is_long
                             (all_but_last_10 long_then_ten))))
           * (1 # 2))%Q
    /\ ((501 # 2) * Py.float_of_nat (length (Suggestions.suggestions r))
        <= Suggestions.estimated_savings r)%Q.
Proof.
  split; [reflexivity|]. apply estimated_savings_closed_form. reflexivity.
Defined.

(** *** The token total and growing conversations *)

Lemma all_but_last_10_app {A} (l more : list A) :
  all_but_last_10 l `prefix_of` all_but_last_10 (l ++ more).
Proof.
  unfold all_but_last_10. rewrite length_app.
  set (b := length l + length more - 10).
  replace (take (length l - 10) l)
    with (take (length l - 10) (take b (l ++ more))).
  - apply prefix_take.
  - rewrite take_take, take_app_le by lia. f_equal. lia.
Qed.

(** X9. For every conversation and threshold, [total_tokens] lies
    between the number of words of all the messages and thirteen tenths
    of it: the last ten messages count as well, and a conversation
    without words has no tokens. *)
Theorem total_tokens_bounds self now conversation threshold :
  mock_mode self = true ->
  exists r,
    get_compression_suggestions self now conversation threshold = Ok (Some r)
    /\ (Z.of_nat (total_words conversation) <= Suggestions.total_tokens r)%Z
    /\ (10 * Suggestions.total_tokens r
        <= 13 * Z.of_nat (total_words conversation))%Z.
Proof.
  intros Hm. rewrite get_compression_suggestions_mock by done.
  eexists. split; [reflexivity|]. cbn [Suggestions.total_tokens].
  rewrite total_tokens_closed_form.
  set (w := Z.of_nat (total_words conversation)).
  assert (0 <= w)%Z by (unfold w; lia).
  pose proof (Z.div_mod (13 * w) 10 ltac:(lia)).
  pose proof (Z.mod_pos_bound (13 * w) 10 ltac:(lia)).
  split; [|lia].
  apply Z.div_le_lower_bound; lia.
Qed.

Lemma total_tokens_bounds_witness :
  mock_mode init = true /\
  exists r,
    get_compression_suggestions init "2025-05-28T12:00:00" demo_conversation
      (7 # 10) = Ok (Some r)
    /\ (Z.of_nat (total_words demo_conversation)
        <= Suggestions.total_tokens r)%Z
    /\ (10 * Suggestions.total_tokens r
        <= 13 * Z.of_nat (total_words demo_conversation))%Z.
Proof.
  split; [reflexivity|]. apply total_tokens_bounds. reflexivity.
Defined.

(** X10. Messages added at the end of a conversation never withdraw or
    renumber a suggestion: the suggestions for the longer conversation
    start with those for the shorter one, and [total_tokens] does not
    decrease. *)
Theorem suggestions_grow self now1 now2 conversation more threshold1
    threshold2 :
  mock_mode self = true ->
  exists r1 r2,
    get_compression_suggestions self now1 conversation threshold1
    = Ok (Some r1)
    /\ get_compression_suggestions self now2 (conversation ++ more) threshold2
       = Ok (Some r2)
    /\ Suggestions.suggestions r1 `prefix_of` Suggestions.suggestions r2
    /\ (Suggestions.total_tokens r1 <= Suggestions.total_tokens r2)%Z.
Proof.
  intros Hm. rewrite !get_compression_suggestions_mock by done.
  eexists _, _. split; [reflexivity|]. split; [reflexivity|].
  cbn [Suggestions.suggestions Suggestions.total_tokens]. split.
  - destruct (all_but_last_10_app conversation more) as [rest ->].
    rewrite long_messages_app. by apply prefix_app_r.
  - rewrite !total_tokens_closed_form, total_words_app.
    apply Z.div_le_mono; lia.
Qed.

Lemma suggestions_grow_witness :
  mock_mode init = true /\
  exists r1 r2,
    get_compression_suggestions init "2025-05-28T12:00:00" long_then_ten
      (7 # 10) = Ok (Some r1)
    /\ get_compression_suggestions init "2025-05-28T12:05:00"
         (long_then_ten ++ demo_conversation) (1 # 2) = Ok (Some r2)
    /\ Suggestions.suggestions r1 `prefix_of` Suggestions.suggestions r2
    /\ (Suggestions.total_tokens r1 <= Suggestions.total_tokens r2)%Z.
Proof.
  split; [reflexivity|]. apply suggestions_grow. reflexivity.
Defined.

(** ** What [compress_conversation] collects *)

(** X11. The extraction loop amounts to a filter: [key_points] holds,
    in conversation order, the snippets of the first five messages that
    mention a build word, [decisions] those of the first three that
    mention a decision word; [message_count] is the number of messages
    and the headline names it. *)
Theorem conversation_summary_contents self now messages max_tokens :
  mock_mode self = true ->
  exists r,
    compress_conversation self now messages max_tokens = Ok (Some r)
    /\ ConversationSummary.key_points r
       = take 5 (map snippet_of (List.filter is_key_point messages))
    /\ ConversationSummary.decisions r
       = take 3 (map snippet_of (List.filter is_decision messages))
    /\ ConversationSummary.message_count r = length messages
    /\ ConversationSummary.summary r
       = str "Conversation with " ++ str (pretty (length messages))
         ++ str " messages".
Proof.
  intros Hm. rewrite compress_conversation_mock by done.
  eexists. split; [reflexivity|]. done.
Qed.

Lemma conversation_summary_contents_witness :
  mock_mode init = true /\
  exists r,
    compress_conversation init "2025-05-28T12:00:00" seven_matches 1000
    = Ok (Some r)
    /\ ConversationSummary.key_points r
       = take 5 (map snippet_of (List.filter is_key_point seven_matches))
    /\ ConversationSummary.decisions r
       = take 3 (map snippet_of (List.filter is_decision seven_matches))
    /\ ConversationSummary.message_count r = length seven_matches
    /\ ConversationSummary.summary r
       = str "Conversation with " ++ str (pretty (length seven_matches))
         ++ str " messages".
Proof.
  split; [reflexivity|]. apply conversation_summary_contents. reflexivity.
Defined.

Lemma elem_of_take_snippets (f : Message -> bool) n messages e :
  e ∈ take n (map snippet_of (List.filter f messages)) ->
  exists msg, msg ∈ messages /\ f msg = true /\ e = snippet_of msg.
Proof.
  intros (i & Hi)%list_elem_of_lookup_1.
  apply lookup_take_Some in Hi as [Hi _].
  apply list_elem_of_lookup_2, list_elem_of_In, in_map_iff in Hi
    as (msg & <- & Hin).
  apply filter_In in Hin as [Hin Hf].
  exists msg. by rewrite list_elem_of_In.
Qed.

Lemma snippet_length content :
  3 <= length (snippet content) <= 103
  /\ (100 <= length content -> length (snippet content) = 103).
Proof.
  unfold snippet. rewrite length_app, length_take.
  change (length (str "...")) with 3. lia.
Qed.

(** X12. Every entry of [key_points] and of [decisions] is the first
    100 characters of the content of a matching message of the
    conversation followed by "...", also when that content is shorter
    than 100 characters: an entry has between 3 and 103 characters. *)
Theorem summary_entries_are_snippets self now messages max_tokens :
  mock_mode self = true ->
  exists r,
    compress_conversation self now messages max_tokens = Ok (Some r)
    /\ (forall e, e ∈ ConversationSummary.key_points r ->
          exists msg, msg ∈ messages /\ is_key_point msg = true
            /\ e = take 100 (content_of msg) ++ str "..."
            /\ 3 <= length e <= 103)
    /\ (forall e, e ∈ ConversationSummary.decisions r ->
          exists msg, msg ∈ messages /\ is_decision msg = true
            /\ e = take 100 (content_of msg) ++ str "..."
            /\ 3 <= length e <= 103).
Proof.
  intros Hm. rewrite compress_conversation_mock by done.
  eexists. split; [reflexivity|].
  cbn [ConversationSummary.key_points ConversationSummary.decisions].
  split; intros e (msg & Hin & Hf & ->)%elem_of_take_snippets;
    exists msg; (split; [done|]); (split; [done|]); (split; [done|]);
    apply snippet_length.
Qed.

Lemma summary_entries_are_snippets_witness :
  mock_mode init = true /\
  exists r,
    compress_conversation init "2025-05-28T12:00:00" demo_conversation 1000
    = Ok (Some r)
    /\ (forall e, e ∈ ConversationSummary.key_points r ->
          exists msg, msg ∈ demo_conversation /\ is_key_point msg = true
            /\ e = take 100 (content_of msg) ++ str "..."
            /\ 3 <= length e <= 103)
    /\ (forall e, e ∈ ConversationSummary.decisions r ->
          exists msg, msg ∈ demo_conversation /\ is_decision msg = true
            /\ e = take 100 (content_of msg) ++ str "..."
            /\ 3 <= length e <= 103).
Proof.
  split; [reflexivity|]. apply summary_entries_are_snippets. reflexivity.
Defined.

Lemma take_snippets_app (f : Message -> bool) n (l more : list Message) :
  take n (map snippet_of (List.filter f (l ++ more)))
  = take n (map snippet_of (List.filter f l))
    ++ take (n - length (List.filter f l))
         (map snippet_of (List.filter f more)).
Proof. by rewrite List.filter_app, map_app, take_app, length_map. Qed.

Lemma take_snippets_full (f : Message -> bool) n (l more : list Message) :
  length (take n (map snippet_of (List.filter f l))) = n ->
  take n (map snippet_of (List.filter f (l ++ more)))
  = take n (map snippet_of (List.filter f l)).
Proof.
  rewrite length_take, length_map. intros Hn. rewrite take_snippets_app.
  replace (n - length (List.filter f l)) with 0 by lia.
  by rewrite take_0, app_nil_r.
Qed.

(** X13. Messages added at the end of a conversation only add entries
    after the existing ones; once five key points (three decisions) are
    held, later messages change that list no more, whatever they
    say. *)
Theorem summary_grows_until_full self now1 now2 messages more max_tokens1
    max_tokens2 :
  mock_mode self = true ->
  exists r1 r2,
    compress_conversation self now1 messages max_tokens1 = Ok (Some r1)
    /\ compress_conversation self now2 (messages ++ more) max_tokens2
       = Ok (Some r2)
    /\ ConversationSummary.key_points r1
       `prefix_of` ConversationSummary.key_points r2
    /\ ConversationSummary.decisions r1
       `prefix_of` ConversationSummary.decisions r2
    /\ (length (ConversationSummary.key_points r1) = 5 ->
        ConversationSummary.key_points r2 = ConversationSummary.key_points r1)
    /\ (length (ConversationSummary.decisions r1) = 3 ->
        ConversationSummary.decisions r2 = ConversationSummary.decisions r1).
Proof.
  intros Hm. rewrite !compress_conversation_mock by done.
  eexists _, _. split; [reflexivity|]. split; [reflexivity|].
  cbn [ConversationSummary.key_points ConversationSummary.decisions].
  repeat split.
  - rewrite take_snippets_app. by apply prefix_app_r.
  - rewrite take_snippets_app. by apply prefix_app_r.
  - apply take_snippets_full.
  - apply take_snippets_full.
Qed.

Lemma summary_grows_until_full_witness :
  mock_mode init = true /\
  exists r1 r2,
    compress_conversation init "2025-05-28T12:00:00" seven_matches 1000
    = Ok (Some r1)
    /\ compress_conversation init "2025-05-28T12:05:00"
         (seven_matches ++ demo_conversation) 500 = Ok (Some r2)
    /\ ConversationSummary.key_points r1
       `prefix_of` ConversationSummary.key_points r2
    /\ ConversationSummary.decisions r1
       `prefix_of` ConversationSummary.decisions r2
    /\ (length (ConversationSummary.key_points r1) = 5 ->
        ConversationSummary.key_points r2 = ConversationSummary.key_points r1)
    /\ (length (ConversationSummary.decisions r1) = 3 ->
        ConversationSummary.decisions r2 = ConversationSummary.decisions r1).
Proof.
  split; [reflexivity|]. apply summary_grows_until_full. reflexivity.
Defined.

Lemma lookup_take_snippets (f : Message -> bool) n pre post msg :
  f msg = true ->
  length (List.filter f pre) < n ->
  take n (map snippet_of (List.filter f (pre ++ msg :: post)))
    !! length (List.filter f pre)
  = Some (snippet_of msg).
Proof.
  intros Hf Hn. rewrite lookup_take_lt by done.
  rewrite List.filter_app, map_app. cbn [List.filter]. rewrite Hf.
  rewrite lookup_app_r by (rewrite length_map; lia).
  by rewrite length_map, Nat.sub_diag.
Qed.

(** X14. A message that mentions a decision word, with fewer than three
    such messages before it, is recorded in [decisions] at the position
    given by the number of those earlier messages; the same holds for
    build words and [key_points] with five. A message that mentions
    both kinds of word is recorded in both lists. *)
Theorem matching_message_recorded self now pre msg post max_tokens :
  mock_mode self = true ->
  exists r,
    compress_conversation self now (pre ++ msg :: post) max_tokens
    = Ok (Some r)
    /\ (is_decision msg = true ->
        length (List.filter is_decision pre) < 3 ->
        ConversationSummary.decisions r
          !! length (List.filter is_decision pre)
        = Some (snippet_of msg))
    /\ (is_key_point msg = true ->
        length (List.filter is_key_point pre) < 5 ->
        ConversationSummary.key_points r
          !! length (List.filter is_key_point pre)
        = Some (snippet_of msg)).
Proof.
  intros Hm. rewrite compress_conversation_mock by done.
  eexists. split; [reflexivity|].
  cbn [ConversationSummary.key_points ConversationSummary.decisions].
  split; apply lookup_take_snippets.
Qed.

Lemma matching_message_recorded_witness :
  mock_mode init = true /\
  exists r,
    compress_conversation init "2025-05-28T12:00:00"
      (demo_conversation ++ decided_to_build :: []) 1000 = Ok (Some r)
    /\ ConversationSummary.decisions r
         !! length (List.filter is_decision demo_conversation)
       = Some (snippet_of decided_to_build)
    /\ ConversationSummary.key_points r
         !! length (List.filter is_key_point demo_conversation)
       = Some (snippet_of decided_to_build).
Proof.
  split; [reflexivity|].
  destruct (matching_message_recorded init "2025-05-28T12:00:00"
              demo_conversation decided_to_build [] 1000 eq_refl)
    as (r & Hr & Hd & Hk).
  exists r. split; [exact Hr|]. split.
  - apply Hd; [reflexivity|vm_compute; lia].
  - apply Hk; [reflexivity|vm_compute; lia].
Defined.

(** *** Keywords inside words and in capitals *)








(** * The diagnostic tool *)

Section Diagnostic.

Import MCPDiagnostic.

Implicit Types (self : Report) (infos : list ProcInfo)
  (config_paths : list (text * file_state)).

(** ** The process list *)






(** ** The configuration entry *)












(** ** The suggestions *)
























(** A run on the sample machine: memory at 93 per cent, one listed
    zombie, a configuration file that does not parse. *)
Example demo_run :
  exists checked,
    run_diagnostics init (inl demo_readings) (inl demo_table) demo_paths
      (Some (str "Permission denied")) None None = Returned checked
    /\ recovery_suggestions checked
       = Some [close_applications; kill_zombies; create_config]
    /\ mcp_config checked = Some ConfigAbsent
    /\ exists p, mcp_processes checked = Some (ProcessList [p])
         /\ pid p = 412%Z /\ cmdline p = str "node /opt/MCP/server.js".
Proof.
  eexists. split; [vm_compute; reflexivity|]. split; [reflexivity|].
  split; [reflexivity|]. eexists. split; [reflexivity|]. done.
Qed.

End Diagnostic.
